(** * The Delphioracle Hyperion plugin (src/index.ts)

    A shallow embedding of the plugin's interval classifier, of the
    [get_datapoints_histogram] route handler and of the delta handler that
    the constructor registers, together with the properties the
    specification states about them.

    The handler works on untyped data ([elastic: any], [bucket: any],
    [delta]), so the embedding carries a small model of JavaScript values
    with the language's own truthiness, [||], [?.] and property access, and
    of the [Date] built-ins the handler calls. *)

From Stdlib Require Import ZArith List String Ascii Bool Lia Floats.
Import ListNotations.
Set Warnings "-register-all".
Local Open Scope string_scope.
Local Open Scope Z_scope.

(* ===================================================================== *)
(** ** JavaScript values *)
(* ===================================================================== *)

Module JS.

(** Plain data as the store returns it and as the handler builds it: a
    number is an IEEE double, an object is its list of own properties in
    insertion order (keys are unique). *)
Inductive value : Type :=
| VUndefined
| VNull
| VBool (b : bool)
| VNum (n : float)
| VStr (s : string)
| VArr (xs : list value)
| VObj (fields : list (string * value)).

(** A thrown [Error] object: the handler's catch block reads [message]. *)
Record JsError : Type := mkError { name : string; message : string }.

(** How a piece of code completes: normally with a value, or by throwing. *)
Inductive completion (A : Type) : Type :=
| Normal (a : A)
| Throw (e : JsError).
Arguments Normal {A} a.
Arguments Throw {A} e.

Definition TypeError (msg : string) : JsError := mkError "TypeError" msg.
Definition RangeError (msg : string) : JsError := mkError "RangeError" msg.

(** [ToBoolean] on a number: [+0], [-0] and [NaN] are falsy. *)
Definition number_truthy (n : float) : bool :=
  negb (PrimFloat.eqb n 0%float || negb (PrimFloat.eqb n n)).

(** [ToBoolean] on a string: only the empty string is falsy. *)
Definition string_truthy (s : string) : bool :=
  match s with
  | EmptyString => false
  | String _ _ => true
  end.

(** [ToBoolean]. *)
Definition truthy (v : value) : bool :=
  match v with
  | VUndefined | VNull => false
  | VBool b => b
  | VNum n => number_truthy n
  | VStr s => string_truthy s
  | VArr _ | VObj _ => true
  end.

(** [a || b] where evaluating [b] cannot throw. *)
Definition or_else (a b : value) : value := if truthy a then a else b.

(** [o || d] for an optional string property ([scope?: string], [None]
    when the property is absent) and a string default. *)
Definition str_or (o : option string) (d : string) : string :=
  match o with
  | Some s => if string_truthy s then s else d
  | None => d
  end.

(** [o || d] for an optional number property and a number default. *)
Definition num_or (o : option float) (d : float) : float :=
  match o with
  | Some n => if number_truthy n then n else d
  | None => d
  end.

Fixpoint lookup (k : string) (fields : list (string * value)) : option value :=
  match fields with
  | [] => None
  | (k', v) :: rest => if String.eqb k k' then Some v else lookup k rest
  end.

Definition is_nullish (v : value) : bool :=
  match v with
  | VUndefined | VNull => true
  | _ => false
  end.

Definition describe (v : value) : string :=
  match v with
  | VNull => "null"
  | _ => "undefined"
  end.

(** [v.k] and [v[k]] for a key [k] that names no member of a built-in
    prototype (every key the plugin reads is such a key: hits, total,
    aggregations, histogram, buckets, key_as_string, key, doc_count,
    average_price, min_price, max_price, median_price, value, data, owner,
    median).  Reading a property of [undefined] or [null] throws a
    TypeError; a primitive or an array has no such property. *)
Definition get (v : value) (k : string) : completion value :=
  match v with
  | VUndefined | VNull =>
      Throw (TypeError ("Cannot read properties of " ++ describe v
                          ++ " (reading '" ++ k ++ "')"))
  | VObj fields =>
      match lookup k fields with
      | Some x => Normal x
      | None => Normal VUndefined
      end
  | _ => Normal VUndefined
  end.

(** [v?.k]: [undefined] when [v] is [undefined] or [null]. *)
Definition get_opt (v : value) (k : string) : value :=
  match v with
  | VObj fields =>
      match lookup k fields with
      | Some x => x
      | None => VUndefined
      end
  | _ => VUndefined
  end.

(** [o[k] = v] on an object's property list: an existing property keeps its
    place, a new one goes last. *)
Fixpoint set (k : string) (v : value) (fields : list (string * value))
  : list (string * value) :=
  match fields with
  | [] => [(k, v)]
  | (k', v') :: rest =>
      if String.eqb k k' then (k, v) :: rest else (k', v') :: set k v rest
  end.

(** [delete o[k]]. *)
Fixpoint delete (k : string) (fields : list (string * value))
  : list (string * value) :=
  match fields with
  | [] => []
  | (k', v') :: rest =>
      if String.eqb k k' then delete k rest else (k', v') :: delete k rest
  end.

(** [xs.includes(x)] for an array of strings. *)
Definition includes (xs : list string) (x : string) : bool :=
  existsb (String.eqb x) xs.

End JS.

(* ===================================================================== *)
(** ** The [Date] built-ins the handler calls *)
(* ===================================================================== *)

Module JSDate.

(** A time value is a whole number of milliseconds since the epoch; a
    [Date] object holds a time value or is an Invalid Date ([None]). *)
Definition Date : Type := option Z.

Definition msPerSecond : Z := 1000.
Definition msPerMinute : Z := 60000.
Definition msPerHour : Z := 3600000.
Definition msPerDay : Z := 86400000.

Definition Day (t : Z) : Z := t / msPerDay.

Definition is_leap (y : Z) : bool :=
  ((y mod 4 =? 0) && negb (y mod 100 =? 0)) || (y mod 400 =? 0).

Definition DayFromYear (y : Z) : Z :=
  365 * (y - 1970) + (y - 1969) / 4 - (y - 1901) / 100 + (y - 1601) / 400.

(** The largest year whose first day is not after day [d]: an estimate from
    the 400-year cycle (146097 days), corrected among its neighbours. *)
Definition YearFromDay (d : Z) : Z :=
  let y := 1970 + (d * 400) / 146097 in
  if DayFromYear (y + 1) <=? d then y + 1
  else if DayFromYear y <=? d then y
  else y - 1.

Definition YearFromTime (t : Z) : Z := YearFromDay (Day t).

Definition DayWithinYear (t : Z) : Z := Day t - DayFromYear (YearFromTime t).

(** Days of the year before the first of month [m] (0 = January). *)
Definition DaysBeforeMonth (leap : bool) (m : Z) : Z :=
  let l := if leap then 1 else 0 in
  match m with
  | 0 => 0
  | 1 => 31
  | 2 => 59 + l
  | 3 => 90 + l
  | 4 => 120 + l
  | 5 => 151 + l
  | 6 => 181 + l
  | 7 => 212 + l
  | 8 => 243 + l
  | 9 => 273 + l
  | 10 => 304 + l
  | 11 => 334 + l
  | _ => 365 + l
  end.

Definition DaysInMonth (leap : bool) (m : Z) : Z :=
  DaysBeforeMonth leap (m + 1) - DaysBeforeMonth leap m.

Definition month_of_yday (leap : bool) (yd : Z) : Z :=
  if yd <? DaysBeforeMonth leap 1 then 0
  else if yd <? DaysBeforeMonth leap 2 then 1
  else if yd <? DaysBeforeMonth leap 3 then 2
  else if yd <? DaysBeforeMonth leap 4 then 3
  else if yd <? DaysBeforeMonth leap 5 then 4
  else if yd <? DaysBeforeMonth leap 6 then 5
  else if yd <? DaysBeforeMonth leap 7 then 6
  else if yd <? DaysBeforeMonth leap 8 then 7
  else if yd <? DaysBeforeMonth leap 9 then 8
  else if yd <? DaysBeforeMonth leap 10 then 9
  else if yd <? DaysBeforeMonth leap 11 then 10
  else 11.

Definition MonthFromTime (t : Z) : Z :=
  month_of_yday (is_leap (YearFromTime t)) (DayWithinYear t).

Definition DateFromTime (t : Z) : Z :=
  DayWithinYear t
  - DaysBeforeMonth (is_leap (YearFromTime t)) (MonthFromTime t) + 1.

Definition HourFromTime (t : Z) : Z := (t / msPerHour) mod 24.
Definition MinFromTime (t : Z) : Z := (t / msPerMinute) mod 60.
Definition SecFromTime (t : Z) : Z := (t / msPerSecond) mod 60.
Definition msFromTime (t : Z) : Z := t mod msPerSecond.

Definition MakeTime (h m s ms : Z) : Z :=
  h * msPerHour + m * msPerMinute + s * msPerSecond + ms.

(** [MakeDay] for a month in 0..11. *)
Definition MakeDay (y m dt : Z) : Z :=
  DayFromYear y + DaysBeforeMonth (is_leap y) m + dt - 1.

Definition MakeDate (day time : Z) : Z := day * msPerDay + time.

(** [TimeClip]: a time value beyond 100,000,000 days from the epoch is no
    time value. *)
Definition TimeClip (t : Z) : Date :=
  if Z.abs t <=? 8640000000000000 then Some t else None.

(** *** Formatting *)

Definition digit (d : Z) : ascii := ascii_of_nat (48 + Z.to_nat (d mod 10)).

Definition pad2 (n : Z) : string :=
  String (digit (n / 10)) (String (digit n) "").

Definition pad3 (n : Z) : string := String (digit (n / 100)) (pad2 n).

Definition pad4 (n : Z) : string := String (digit (n / 1000)) (pad3 n).

Definition pad6 (n : Z) : string :=
  String (digit (n / 100000)) (String (digit (n / 10000)) (pad4 n)).

(** The year of the date-time string format: four digits for 0..9999, a
    sign and six digits otherwise. *)
Definition year_string (y : Z) : string :=
  if (0 <=? y) && (y <=? 9999) then pad4 y
  else if y <? 0 then "-" ++ pad6 (- y)
  else "+" ++ pad6 y.

Definition iso_string (t : Z) : string :=
  year_string (YearFromTime t) ++ "-" ++ pad2 (MonthFromTime t + 1)
    ++ "-" ++ pad2 (DateFromTime t)
    ++ "T" ++ pad2 (HourFromTime t) ++ ":" ++ pad2 (MinFromTime t)
    ++ ":" ++ pad2 (SecFromTime t) ++ "." ++ pad3 (msFromTime t) ++ "Z".

(** [Date.prototype.toISOString]: throws a RangeError on an Invalid Date. *)
Definition toISOString (d : Date) : JS.completion string :=
  match d with
  | Some t => JS.Normal (iso_string t)
  | None => JS.Throw (JS.RangeError "Invalid time value")
  end.

(** *** Parsing *)

Definition digit_val (c : ascii) : option Z :=
  let n := Z.of_nat (nat_of_ascii c) in
  if (48 <=? n) && (n <=? 57) then Some (n - 48) else None.

(** Exactly [k] decimal digits at the head of [s], added to [10^k * acc]. *)
Fixpoint take_digits (k : nat) (acc : Z) (s : string) : option (Z * string) :=
  match k with
  | O => Some (acc, s)
  | S k' =>
      match s with
      | String c rest =>
          match digit_val c with
          | Some d => take_digits k' (10 * acc + d) rest
          | None => None
          end
      | EmptyString => None
      end
  end.

Definition expect (c : ascii) (s : string) : option string :=
  match s with
  | String c' rest => if Ascii.eqb c c' then Some rest else None
  | EmptyString => None
  end.

(** The date part [YYYY], [YYYY-MM] or [YYYY-MM-DD] and what follows it. *)
Definition parse_date (s : string) : option (Z * Z * Z * string) :=
  match take_digits 4 0 s with
  | None => None
  | Some (y, r1) =>
      match expect "-" r1 with
      | None => Some (y, 1, 1, r1)
      | Some r2 =>
          match take_digits 2 0 r2 with
          | None => None
          | Some (m, r3) =>
              match expect "-" r3 with
              | None => Some (y, m, 1, r3)
              | Some r4 =>
                  match take_digits 2 0 r4 with
                  | None => None
                  | Some (d, r5) => Some (y, m, d, r5)
                  end
              end
          end
      end
  end.

Definition utc_time (h m sec ms : Z) (rest : string) : option Z :=
  if String.eqb rest "Z" && (h <? 24) && (m <? 60) && (sec <? 60)
  then Some (MakeTime h m sec ms)
  else None.

(** The time part [HH:mm], [HH:mm:ss] or [HH:mm:ss.sss] followed by the UTC
    designator [Z], as milliseconds within the day. *)
Definition parse_time (s : string) : option Z :=
  match take_digits 2 0 s with
  | None => None
  | Some (h, r1) =>
      match expect ":" r1 with
      | None => None
      | Some r2 =>
          match take_digits 2 0 r2 with
          | None => None
          | Some (m, r3) =>
              match expect ":" r3 with
              | None => utc_time h m 0 0 r3
              | Some r4 =>
                  match take_digits 2 0 r4 with
                  | None => None
                  | Some (sec, r5) =>
                      match expect "." r5 with
                      | None => utc_time h m sec 0 r5
                      | Some r6 =>
                          match take_digits 3 0 r6 with
                          | None => None
                          | Some (ms, r7) => utc_time h m sec ms r7
                          end
                      end
                  end
              end
          end
      end
  end.

(** The time value of a string in the date-time string format of the
    language standard, for the forms whose meaning the standard fixes
    without reference to the local time zone: a date-only form, or a date
    and a time followed by [Z], every field in range.  [None] for every
    other string. *)
Definition iso_utc (s : string) : option Z :=
  match parse_date s with
  | None => None
  | Some (y, m, d, rest) =>
      if (1 <=? m) && (m <=? 12) && (1 <=? d)
         && (d <=? DaysInMonth (is_leap y) (m - 1))
      then
        let day := MakeDay y (m - 1) d in
        match rest with
        | EmptyString => Some (MakeDate day 0)
        | String c rest' =>
            if Ascii.eqb c "T" then
              match parse_time rest' with
              | Some t => Some (MakeDate day t)
              | None => None
              end
            else None
        end
      else None
  end.

(** [Date.parse].  What a string outside the forms above parses to (a local
    time, an offset, a legacy format, or nothing) is left to the host
    [host_parse]; [None] is NaN. *)
Definition parse (host_parse : string -> option Z) (s : string) : option Z :=
  match iso_utc s with
  | Some t => Some t
  | None => host_parse s
  end.

(** [new Date(s)] for a string [s]. *)
Definition of_string (host_parse : string -> option Z) (s : string) : Date :=
  match parse host_parse s with
  | Some t => TimeClip t
  | None => None
  end.

(** [new Date(t)] for a whole number [t]. *)
Definition of_number (t : Z) : Date := TimeClip t.

End JSDate.

(* ===================================================================== *)
(** ** The plugin *)
(* ===================================================================== *)

Module DelphioraclePlugin.
Import JS.

(** [interface DelphioracleConfig]. *)
Module Config.
Record t : Type := mk { table : option string; contract : option string }.
End Config.

(** [interface OracleDatapointsQuery]. *)
Module Query.
Record t : Type := mk {
  scope : option string;
  interval : option string;
  after : option string;
  before : option string;
  size : option float
}.
End Query.

(** *** Interval classification *)

Definition CALENDAR_INTERVALS : list string :=
  ["1m"; "1h"; "1d"; "1w"; "1M"; "1q"; "1y"].

Definition FIXED_INTERVALS : list string :=
  ["1m"; "2m"; "5m"; "10m"; "15m"; "20m"; "30m";
   "1h"; "2h"; "3h"; "4h"; "5h"; "6h"; "8h"; "12h";
   "1d"; "2d"; "3d"; "7d"; "1w"; "2w"].

Inductive IntervalType : Type := calendar | fixed.

Module IntervalConfig.
Record t : Type := mk { interval : string; type : IntervalType }.
End IntervalConfig.

(** [getIntervalConfig]; the argument is [None] when the caller passes
    [undefined]. *)
Definition getIntervalConfig (interval : option string) : IntervalConfig.t :=
  match interval with
  | None => IntervalConfig.mk "1h" calendar
  | Some i =>
      if negb (string_truthy i) then IntervalConfig.mk "1h" calendar
      else if includes CALENDAR_INTERVALS i then IntervalConfig.mk i calendar
      else if includes FIXED_INTERVALS i then IntervalConfig.mk i fixed
      else IntervalConfig.mk "1h" calendar
  end.

(** *** The world of a request *)

(** What a request reads but does not change: the system clock (its
    successive readings, in milliseconds), the host's parser for date
    strings outside the standard format, the chain name of the deployment
    and the store's answer to a search. *)
Record Env : Type := mkEnv {
  clock : nat -> Z;
  host_parse : string -> option Z;
  chain : string;
  elastic_search : value -> completion value
}.

(** What a request changes: how often it has read the clock, which
    searches it has submitted to the store, and what it has written to the
    server's error log. *)
Record World : Type := mkWorld {
  clock_reads : nat;
  searches : list value;
  error_log : list (string * JsError)
}.

Definition M (A : Type) : Type := World -> completion A * World.

Definition ret {A} (a : A) : M A := fun w => (Normal a, w).

Definition bind {A B} (m : M A) (k : A -> M B) : M B :=
  fun w =>
    match m w with
    | (Normal a, w') => k a w'
    | (Throw e, w') => (Throw e, w')
    end.

Definition lift {A} (c : completion A) : M A := fun w => (c, w).

(** [try { body } catch (error) { handler }]. *)
Definition try_catch {A} (body : M A) (handler : JsError -> M A) : M A :=
  fun w =>
    match body w with
    | (Normal a, w') => (Normal a, w')
    | (Throw e, w') => handler e w'
    end.

Declare Scope js_scope.
Delimit Scope js_scope with js.
Notation "x <- m ;; k" := (bind m (fun x => k))
  (at level 61, m at next level, right associativity) : js_scope.
Notation "m ;;; k" := (bind m (fun _ => k))
  (at level 61, right associativity) : js_scope.

(** The same sequencing for code that touches no state. *)
Definition cbind {A B} (c : completion A) (k : A -> completion B)
  : completion B :=
  match c with
  | Normal a => k a
  | Throw e => Throw e
  end.

Notation "x <-- c ;; k" := (cbind c (fun x => k))
  (at level 61, c at next level, right associativity) : js_scope.

Fixpoint mapM {A B} (f : A -> completion B) (xs : list A)
  : completion (list B) :=
  match xs with
  | [] => Normal []
  | x :: rest =>
      cbind (f x) (fun y => cbind (mapM f rest) (fun ys => Normal (y :: ys)))
  end.

(** [Date.now()] and the time value of [new Date()]: the next reading of
    the clock. *)
Definition Date_now (env : Env) : M Z :=
  fun w => (Normal (clock env (clock_reads w)),
            mkWorld (S (clock_reads w)) (searches w) (error_log w)).

(** [server.log.error(msg, error)]. *)
Definition log_error (msg : string) (e : JsError) : M unit :=
  fun w => (Normal tt,
            mkWorld (clock_reads w) (searches w) (error_log w ++ [(msg, e)])).

(** [await extServer.elastic.search(request)]: the store answers or the
    client rejects with an error. *)
Definition search (env : Env) (request : value) : M value :=
  fun w => (elastic_search env request,
            mkWorld (clock_reads w) (searches w ++ [request]) (error_log w)).

(** *** The histogram route: request construction *)

Local Open Scope js_scope.

(** A string property that is present and truthy. *)
Definition given (o : option string) : option string :=
  match o with
  | Some s => if string_truthy s then Some s else None
  | None => None
  end.

Module TimeRange.
Record t : Type := mk { gte : string; lte : string }.
End TimeRange.

Definition timeRange_gte (env : Env) (query : Query.t) : M string :=
  match given (Query.after query) with
  | Some a => lift (JSDate.toISOString (JSDate.of_string (host_parse env) a))
  | None =>
      now <- Date_now env ;;
      lift (JSDate.toISOString
              (JSDate.of_number (now - 24 * 60 * 60 * 1000)))
  end.

Definition timeRange_lte (env : Env) (query : Query.t) : M string :=
  match given (Query.before query) with
  | Some b => lift (JSDate.toISOString (JSDate.of_string (host_parse env) b))
  | None =>
      now <- Date_now env ;;
      lift (JSDate.toISOString (JSDate.of_number now))
  end.

Definition build_timeRange (env : Env) (query : Query.t) : M TimeRange.t :=
  gte <- timeRange_gte env query ;;
  lte <- timeRange_lte env query ;;
  ret (TimeRange.mk gte lte).

Definition dateHistogramConfig (intervalConfig : IntervalConfig.t) : value :=
  match IntervalConfig.type intervalConfig with
  | calendar =>
      VObj [("field", VStr "@timestamp");
            ("calendar_interval",
             VStr (IntervalConfig.interval intervalConfig))]
  | fixed =>
      VObj [("field", VStr "@timestamp");
            ("fixed_interval",
             VStr (IntervalConfig.interval intervalConfig))]
  end.

Definition metric (op field : string) : value :=
  VObj [(op, VObj [("field", VStr field)])].

Definition term (field v : string) : value :=
  VObj [("term", VObj [(field, VObj [("value", VStr v)])])].

Definition searchBody (intervalConfig : IntervalConfig.t) (size : float)
    (timeRange : TimeRange.t) (contractName tableName scope : string)
  : list (string * value) :=
  [("aggs",
    VObj [("histogram",
      VObj [("date_histogram", dateHistogramConfig intervalConfig);
            ("aggs",
             VObj [("average_price", metric "avg" "@datapoints.value");
                   ("min_price", metric "min" "@datapoints.value");
                   ("max_price", metric "max" "@datapoints.value");
                   ("median_price", metric "avg" "@datapoints.median")])])]);
   ("size", VNum size);
   ("query",
    VObj [("bool",
      VObj [("must",
        VArr [VObj [("range",
                VObj [("@timestamp",
                  VObj [("format", VStr "strict_date_optional_time");
                        ("gte", VStr (TimeRange.gte timeRange));
                        ("lte", VStr (TimeRange.lte timeRange))])])];
              term "code" contractName;
              term "table" tableName;
              term "scope" scope])])])].

(** The argument of [elastic.search]: the index pattern of the chain, then
    the search body spread into the same object. *)
Definition search_request (env : Env) (body : list (string * value)) : value :=
  VObj (("index", VStr (chain env ++ "-delta-*")) :: body).

(** *** The histogram route: response shaping *)

Module Bucket.
Record t : Type := mk {
  timestamp : value;
  doc_count : value;
  average_price : value;
  min_price : value;
  max_price : value;
  median_price : value
}.
End Bucket.

Module Window.
Record t : Type := mk { from : string; to : string }.
End Window.

Module Response.
Record t : Type := mk {
  query_time_ms : float;
  scope : string;
  contract : string;
  table : string;
  interval : string;
  time_range : Window.t;
  total_documents : value;
  histogram : list Bucket.t
}.
End Response.

(** [bucket.k?.value || null]. *)
Definition statistic (bucket : value) (k : string) : completion value :=
  s <-- get bucket k ;;
  Normal (or_else (get_opt s "value") VNull).

(** The callback of [buckets.map]. *)
Definition shape_bucket (bucket : value) : completion Bucket.t :=
  key_as_string <-- get bucket "key_as_string" ;;
  timestamp <-- (if truthy key_as_string then Normal key_as_string
                 else get bucket "key") ;;
  doc_count <-- get bucket "doc_count" ;;
  average_price <-- statistic bucket "average_price" ;;
  min_price <-- statistic bucket "min_price" ;;
  max_price <-- statistic bucket "max_price" ;;
  median_price <-- statistic bucket "median_price" ;;
  Normal (Bucket.mk timestamp doc_count average_price min_price max_price
            median_price).

(** [v.map(f)] on plain data: only an array has a [map] method. *)
Definition array_map {B} (callee : string) (f : value -> completion B)
    (v : value) : completion (list B) :=
  match v with
  | VArr xs => mapM f xs
  | VUndefined | VNull =>
      Throw (TypeError ("Cannot read properties of " ++ describe v
                          ++ " (reading 'map')"))
  | _ => Throw (TypeError (callee ++ ".map is not a function"))
  end.

(** The response object and the extraction of the histogram buckets. *)
Definition shape_response (scope contractName tableName : string)
    (intervalConfig : IntervalConfig.t) (timeRange : TimeRange.t)
    (results : value) : completion Response.t :=
  hits <-- get results "hits" ;;
  let total_documents := or_else (get_opt hits "total") (VNum 0) in
  aggregations <-- get results "aggregations" ;;
  histogram <--
    (if truthy (get_opt (get_opt aggregations "histogram") "buckets") then
       a <-- get results "aggregations" ;;
       h <-- get a "histogram" ;;
       buckets <-- get h "buckets" ;;
       array_map "results.aggregations.histogram.buckets" shape_bucket buckets
     else Normal []) ;;
  Normal (Response.mk 0 scope contractName tableName
            (IntervalConfig.interval intervalConfig)
            (Window.mk (TimeRange.gte timeRange) (TimeRange.lte timeRange))
            total_documents histogram).

(** *** The histogram route: the handler *)

Inductive Payload : Type :=
| Ok (response : Response.t)
| Failure (error : string) (message : string)
| Message (message : string).

(** What [reply.status(code).send(payload)] sends; [reply.send] alone sends
    with status 200. *)
Record Reply : Type := mkReply { status : Z; payload : Payload }.

(** [this.baseConfig?.contract] and [this.baseConfig?.table]. *)
Definition baseConfig_contract (baseConfig : option Config.t) : option string :=
  match baseConfig with
  | Some c => Config.contract c
  | None => None
  end.

Definition baseConfig_table (baseConfig : option Config.t) : option string :=
  match baseConfig with
  | Some c => Config.table c
  | None => None
  end.

Module Params.
Record t : Type := mk {
  contractName : string;
  tableName : string;
  scope : string;
  intervalConfig : IntervalConfig.t;
  size : float
}.
End Params.

(** The constants the handler binds before it builds the time range. *)
Definition parameters (baseConfig : option Config.t) (query : Query.t)
  : Params.t :=
  Params.mk
    (str_or (baseConfig_contract baseConfig) "delphioracle")
    (str_or (baseConfig_table baseConfig) "datapoints")
    (str_or (Query.scope query) "tlosusd")
    (getIntervalConfig (Some (str_or (Query.interval query) "1h")))
    (num_or (Query.size query) 0).

(** The search request the handler hands to the store for a time range. *)
Definition request_of (env : Env) (p : Params.t) (timeRange : TimeRange.t)
  : value :=
  search_request env
    (searchBody (Params.intervalConfig p) (Params.size p) timeRange
       (Params.contractName p) (Params.tableName p) (Params.scope p)).

(** The body of the [try] block. *)
Definition try_block (env : Env) (baseConfig : option Config.t)
    (query : Query.t) : M Reply :=
  let p := parameters baseConfig query in
  timeRange <- build_timeRange env query ;;
  results <- search env (request_of env p timeRange) ;;
  response <- lift (shape_response (Params.scope p) (Params.contractName p)
                      (Params.tableName p) (Params.intervalConfig p)
                      timeRange results) ;;
  ret (mkReply 200 (Ok response)).

(** The [catch] block. *)
Definition catch_block (error : JsError) : M Reply :=
  log_error "Error in get_datapoints_histogram:" error ;;;
  ret (mkReply 500 (Failure "Internal server error" (message error))).

(** [GET /v2/oracle/get_datapoints_histogram]. *)
Definition get_datapoints_histogram (env : Env)
    (baseConfig : option Config.t) (query : Query.t) : M Reply :=
  try_catch (try_block env baseConfig query) catch_block.

(** [GET /v2/history/get_oracle_datapoints]. *)
Definition get_oracle_datapoints : Reply :=
  mkReply 200 (Message "Delphioracle API is running!").

(** *** The delta handler registered by the constructor *)

Module DeltaHandler.
Record t : Type := mk {
  table : string;
  contract : string;
  mappings : value;
  handler : list (string * value) -> completion (list (string * value))
}.
End DeltaHandler.

(** [data['value'] && data['median'] && data['owner']]. *)
Definition complete_datapoint (data : value) : completion value :=
  v <-- get data "value" ;;
  if truthy v then
    m <-- get data "median" ;;
    if truthy m then get data "owner" else Normal m
  else Normal v.

(** The handler: the delta record (its properties) after the call. *)
Definition delta_handler (tableName : string) (delta : list (string * value))
  : completion (list (string * value)) :=
  data <-- get (VObj delta) "data" ;;
  test <-- complete_datapoint data ;;
  if truthy test then
    owner <-- get data "owner" ;;
    val <-- get data "value" ;;
    median <-- get data "median" ;;
    Normal (delete "data"
              (set ("@" ++ tableName)
                 (VObj [("owner", owner); ("value", val); ("median", median)])
                 delta))
  else Normal delta.

Definition delta_mappings (tableName : string) : value :=
  VObj [("delta",
    VObj [("@" ++ tableName,
      VObj [("properties",
        VObj [("value", VObj [("type", VStr "long")]);
              ("owner", VObj [("type", VStr "keyword")]);
              ("median", VObj [("type", VStr "long")])])])])].

(** The [deltaHandlers] of a plugin constructed from [config]. *)
Definition constructor (config : Config.t) : list DeltaHandler.t :=
  let tableName := str_or (Config.table config) "datapoints" in
  [DeltaHandler.mk tableName
     (str_or (Config.contract config) "delphioracle")
     (delta_mappings tableName)
     (delta_handler tableName)].

End DelphioraclePlugin.

(* ===================================================================== *)
(** ** Vocabulary of the specification *)
(* ===================================================================== *)

Module Spec.
Import JS DelphioraclePlugin.


(** The filter predicates of a search request: the clauses under
    [query.bool.must]. *)
Definition must_clauses (request : value) : list value :=
  match get_opt (get_opt (get_opt request "query") "bool") "must" with
  | VArr clauses => clauses
  | _ => []
  end.

(** The filter that requires a timestamp within [from, to]. *)
Definition range_clause (from to : string) : value :=
  VObj [("range",
    VObj [("@timestamp",
      VObj [("format", VStr "strict_date_optional_time");
            ("gte", VStr from);
            ("lte", VStr to)])])].

(** The interval of the bucketing descriptor of a search request, under
    whichever of the two keys it was placed. *)
Definition request_interval (request : value) : value :=
  let dh :=
    get_opt (get_opt (get_opt request "aggs") "histogram") "date_histogram" in
  match get_opt dh "calendar_interval" with
  | VUndefined => get_opt dh "fixed_interval"
  | v => v
  end.

(** The buckets of a store response, when it has an aggregation section. *)
Definition reported_buckets (results : value) : value :=
  get_opt (get_opt (get_opt results "aggregations") "histogram") "buckets".

(** The match total of a store response. *)
Definition reported_total (results : value) : value :=
  get_opt (get_opt results "hits") "total".

(** The server-error reply that carries the message of an error. *)
Definition failure_reply (e : JsError) : Reply :=
  mkReply 500 (Failure "Internal server error" (message e)).

(** The largest magnitude of a time value. *)
Definition max_time : Z := 8640000000000000.

(** What follows the first full stop of a string: in a canonical timestamp,
    the milliseconds and the zone designator. *)
Fixpoint after_dot (s : string) : string :=
  match s with
  | EmptyString => EmptyString
  | String c rest => if Ascii.eqb c "." then rest else after_dot rest
  end.

(** The bucketing descriptor of a search request. *)
Definition date_histogram_of (request : value) : value :=
  get_opt (get_opt (get_opt request "aggs") "histogram") "date_histogram".

(** The field each per-bucket statistic of a search request is computed
    over, in the order average, minimum, maximum, median. *)
Definition aggregated_fields (request : value) : list value :=
  let aggs := get_opt (get_opt (get_opt request "aggs") "histogram") "aggs" in
  [get_opt (get_opt (get_opt aggs "average_price") "avg") "field";
   get_opt (get_opt (get_opt aggs "min_price") "min") "field";
   get_opt (get_opt (get_opt aggs "max_price") "max") "field";
   get_opt (get_opt (get_opt aggs "median_price") "avg") "field"].

(** The names of the properties of an object, in order. *)
Definition keys (fields : list (string * value)) : list string :=
  map fst fields.

(** How many clock readings a bound of the window costs: one when the
    request does not give it. *)
Definition readings (bound : option string) : nat :=
  match given bound with
  | Some _ => 0
  | None => 1
  end.

(** The histogram entry of a bucket that is neither null nor undefined. *)
Definition shaped (bucket : value) : Bucket.t :=
  let stat k := or_else (get_opt (get_opt bucket k) "value") VNull in
  Bucket.mk
    (or_else (get_opt bucket "key_as_string") (get_opt bucket "key"))
    (get_opt bucket "doc_count")
    (stat "average_price") (stat "min_price") (stat "max_price")
    (stat "median_price").

(** The object the delta handler derives from the data of a record. *)
Definition datapoint_of (data : value) : value :=
  VObj [("owner", get_opt data "owner");
        ("value", get_opt data "value");
        ("median", get_opt data "median")].

(** The data of a record has truthy value, median and owner fields. *)
Definition complete (data : value) : bool :=
  truthy (get_opt data "value") && truthy (get_opt data "median")
  && truthy (get_opt data "owner").

End Spec.

(* ===================================================================== *)
(** ** Sample runs *)
(* ===================================================================== *)

Module Sample.
Import JS DelphioraclePlugin.

(** A clock that advances by one millisecond between two readings. *)
Definition ticking_clock (n : nat) : Z := 1000 + Z.of_nat n.

(** A host whose date parser knows no format beyond the standard one. *)
Definition strict_host (s : string) : option Z := None.

Definition env_of (store : value -> completion value) : Env :=
  mkEnv ticking_clock strict_host "telos" store.

Definition fresh : World := mkWorld 0 [] [].

Definition no_query : Query.t := Query.mk None None None None None.

(** A store that matched five documents and reports no aggregations. *)
Definition five_hits (request : value) : completion value :=
  Normal (VObj [("hits", VObj [("total", VNum 5)])]).


(** A query with both bounds of the window. *)
Definition bounded_query : Query.t :=
  Query.mk None None (Some "2024-01-01T00:00:00Z")
    (Some "2024-01-02T00:00:00Z") None.

(** A query with an interval that is on neither whitelist. *)
Definition odd_interval_query : Query.t :=
  Query.mk None (Some "3m") None None None.

(** A bucket with an average and no median. *)
Definition bucket_without_median : value :=
  VObj [("key", VNum 1704067200000); ("doc_count", VNum 3);
        ("average_price", VObj [("value", VNum 10)])].

(** A bucket whose minimum is zero. *)
Definition bucket_with_zero : value :=
  VObj [("key", VNum 1704067200000); ("doc_count", VNum 3);
        ("average_price", VObj [("value", VNum 10)]);
        ("min_price", VObj [("value", VNum 0)]);
        ("max_price", VObj [("value", VNum 20)]);
        ("median_price", VObj [("value", VNum 10)])].

(** A delta record as the indexer hands it to the handler. *)
Definition datapoint_delta : list (string * value) :=
  [("code", VStr "delphioracle"); ("scope", VStr "tlosusd");
   ("table", VStr "datapoints");
   ("data", VObj [("id", VNum 7); ("owner", VStr "oracle1");
                  ("value", VNum 1234); ("median", VNum 1230);
                  ("timestamp", VStr "2024-01-01T00:00:00.000")])].

End Sample.

(* ===================================================================== *)
(** ** Properties *)
(* ===================================================================== *)

Import JS DelphioraclePlugin Spec.

(** *** The calendar of the [Date] model *)

Lemma DayFromYear_increasing (y y' : Z) :
  y < y' -> JSDate.DayFromYear y < JSDate.DayFromYear y'.
Proof.
  intros H. unfold JSDate.DayFromYear. Z.div_mod_to_equations. lia.
Qed.

(** [YearFromDay d] is the year that day [d] falls in. *)
Lemma YearFromDay_bounds (d : Z) :
  JSDate.DayFromYear (JSDate.YearFromDay d) <= d
  < JSDate.DayFromYear (JSDate.YearFromDay d + 1).
Proof.
  unfold JSDate.YearFromDay. cbv zeta.
  set (y := 1970 + d * 400 / 146097).
  assert (Hlo : JSDate.DayFromYear (y - 1) <= d).
  { unfold JSDate.DayFromYear. subst y. Z.div_mod_to_equations. lia. }
  assert (Hhi : d < JSDate.DayFromYear (y + 1 + 1)).
  { unfold JSDate.DayFromYear. subst y. Z.div_mod_to_equations. lia. }
  destruct (JSDate.DayFromYear (y + 1) <=? d) eqn:E1.
  - apply Z.leb_le in E1. split; assumption.
  - apply Z.leb_gt in E1.
    destruct (JSDate.DayFromYear y <=? d) eqn:E2.
    + apply Z.leb_le in E2. split; assumption.
    + apply Z.leb_gt in E2. replace (y - 1 + 1) with y by lia.
      split; assumption.
Qed.

(** It is the largest year whose first day is not after [d], as the
    language standard defines the year of a time value. *)
Lemma YearFromDay_largest (d y : Z) :
  JSDate.DayFromYear y <= d -> y <= JSDate.YearFromDay d.
Proof.
  intros H. destruct (Z_le_gt_dec y (JSDate.YearFromDay d)) as [Hle | Hgt];
    [exact Hle |].
  destruct (YearFromDay_bounds d) as [_ Hhi].
  destruct (Z.eq_dec y (JSDate.YearFromDay d + 1)) as [-> | Hne]; [lia |].
  assert (Hlt : JSDate.YearFromDay d + 1 < y) by lia.
  apply DayFromYear_increasing in Hlt. lia.
Qed.

Example iso_string_epoch :
  JSDate.iso_string 0 = "1970-01-01T00:00:00.000Z".
Proof. reflexivity. Qed.

Example iso_string_leap_day :
  JSDate.iso_string 1709251199999 = "2024-02-29T23:59:59.999Z".
Proof. vm_compute. reflexivity. Qed.

Example iso_string_before_epoch :
  JSDate.iso_string (-1) = "1969-12-31T23:59:59.999Z".
Proof. vm_compute. reflexivity. Qed.

Example iso_string_latest :
  JSDate.iso_string 8640000000000000 = "+275760-09-13T00:00:00.000Z".
Proof. vm_compute. reflexivity. Qed.

Example iso_utc_date_time :
  JSDate.iso_utc "2024-01-01T00:00:00Z" = Some 1704067200000
  /\ JSDate.iso_utc "2024-01-01T00:00:00.000Z" = Some 1704067200000
  /\ JSDate.iso_utc "2024-01-01" = Some 1704067200000.
Proof. vm_compute. repeat split. Qed.

Example iso_utc_leaves_to_host :
  JSDate.iso_utc "2024-01-01T00:00:00" = None
  /\ JSDate.iso_utc "2023-02-29T00:00:00Z" = None
  /\ JSDate.iso_utc "Mon, 01 Jan 2024 00:00:00 GMT" = None.
Proof. vm_compute. repeat split. Qed.

(** An unparseable bound is an Invalid Date, whose serialisation throws:
    the request ends in the catch block. *)
Example unparseable_bound :
  fst (get_datapoints_histogram (Sample.env_of Sample.five_hits) None
         (Query.mk None None (Some "garbage") None None) Sample.fresh)
  = Normal (mkReply 500 (Failure "Internal server error"
                           "Invalid time value")).
Proof. reflexivity. Qed.

(** *** Interval classification *)

Lemma includes_In (xs : list string) (x : string) :
  includes xs x = true <-> In x xs.
Proof.
  unfold includes. rewrite existsb_exists. split.
  - intros [y [Hy Heq]]. apply String.eqb_eq in Heq. now subst.
  - intros H. exists x. split; [assumption | apply String.eqb_refl].
Qed.

Lemma includes_not_In (xs : list string) (x : string) :
  includes xs x = false <-> ~ In x xs.
Proof.
  rewrite <- includes_In. destruct (includes xs x); split; congruence.
Qed.

Lemma calendar_truthy (t : string) :
  In t CALENDAR_INTERVALS -> string_truthy t = true.
Proof.
  simpl. intros H. repeat destruct H as [<- | H]; try reflexivity. contradiction.
Qed.

Lemma fixed_truthy (t : string) :
  In t FIXED_INTERVALS -> string_truthy t = true.
Proof.
  simpl. intros H. repeat destruct H as [<- | H]; try reflexivity. contradiction.
Qed.

Lemma classify_calendar (t : string) :
  In t CALENDAR_INTERVALS ->
  getIntervalConfig (Some t) = IntervalConfig.mk t calendar.
Proof.
  intros H. unfold getIntervalConfig.
  rewrite (calendar_truthy t H). cbn [negb].
  apply includes_In in H. now rewrite H.
Qed.

Lemma classify_fixed_only (t : string) :
  In t FIXED_INTERVALS -> ~ In t CALENDAR_INTERVALS ->
  getIntervalConfig (Some t) = IntervalConfig.mk t fixed.
Proof.
  intros Hf Hc. unfold getIntervalConfig.
  rewrite (fixed_truthy t Hf). cbn [negb].
  apply includes_not_In in Hc. rewrite Hc.
  apply includes_In in Hf. now rewrite Hf.
Qed.

Lemma classify_unlisted (t : string) :
  ~ In t CALENDAR_INTERVALS -> ~ In t FIXED_INTERVALS ->
  getIntervalConfig (Some t) = IntervalConfig.mk "1h" calendar.
Proof.
  intros Hc Hf. unfold getIntervalConfig.
  apply includes_not_In in Hc, Hf. rewrite Hc, Hf.
  now destruct (negb (string_truthy t)).
Qed.

(** The classifier never leaves the two whitelists. *)
Lemma classify_whitelisted (tok : option string) :
  In (IntervalConfig.interval (getIntervalConfig tok))
     (CALENDAR_INTERVALS ++ FIXED_INTERVALS).
Proof.
  assert (Hd : In "1h" (CALENDAR_INTERVALS ++ FIXED_INTERVALS))
    by (simpl; tauto).
  destruct tok as [t |]; [| exact Hd].
  unfold getIntervalConfig.
  destruct (negb (string_truthy t)); [exact Hd |].
  destruct (includes CALENDAR_INTERVALS t) eqn:Hc.
  - apply in_or_app. left. now apply includes_In.
  - destruct (includes FIXED_INTERVALS t) eqn:Hf; [| exact Hd].
    apply in_or_app. right. now apply includes_In.
Qed.




(** C5: the classifier is a total function; it returns a calendar token as
    it is, and the default (1h, calendar) for an absent token, for the
    empty token and for every token on neither whitelist. *)
Theorem getIntervalConfig_total :
  (forall tok, exists r, getIntervalConfig tok = r)
  /\ (forall t, In t CALENDAR_INTERVALS ->
        getIntervalConfig (Some t) = IntervalConfig.mk t calendar)
  /\ getIntervalConfig None = IntervalConfig.mk "1h" calendar
  /\ getIntervalConfig (Some "") = IntervalConfig.mk "1h" calendar
  /\ (forall t, ~ In t CALENDAR_INTERVALS -> ~ In t FIXED_INTERVALS ->
        getIntervalConfig (Some t) = IntervalConfig.mk "1h" calendar).
Proof.
  repeat split.
  - intros tok. now exists (getIntervalConfig tok).
  - apply classify_calendar.
  - apply classify_unlisted.
Qed.

Lemma getIntervalConfig_total_witness :
  getIntervalConfig (Some "1M") = IntervalConfig.mk "1M" calendar
  /\ getIntervalConfig (Some "3m") = IntervalConfig.mk "1h" calendar.
Proof.
  destruct getIntervalConfig_total as [_ [Hcal [_ [_ Hdef]]]].
  split.
  - apply Hcal. simpl; tauto.
  - apply Hdef; intros H; apply includes_In in H; vm_compute in H;
      discriminate H.
Defined.

(** *** How a request runs *)

Lemma handler_unfold (env : Env) (baseConfig : option Config.t)
    (query : Query.t) (w : World) :
  get_datapoints_histogram env baseConfig query w =
  let p := parameters baseConfig query in
  match build_timeRange env query w with
  | (Throw e, w1) => catch_block e w1
  | (Normal timeRange, w1) =>
      let request := request_of env p timeRange in
      let w2 := mkWorld (clock_reads w1) (searches w1 ++ [request])
                  (error_log w1) in
      match elastic_search env request with
      | Throw e => catch_block e w2
      | Normal results =>
          match shape_response (Params.scope p) (Params.contractName p)
                  (Params.tableName p) (Params.intervalConfig p)
                  timeRange results with
          | Throw e => catch_block e w2
          | Normal response => (Normal (mkReply 200 (Ok response)), w2)
          end
      end
  end.
Proof.
  unfold get_datapoints_histogram, try_catch, try_block, bind, search, lift, ret.
  cbv zeta.
  destruct (build_timeRange env query w) as [[timeRange | e] w1];
    [| reflexivity].
  destruct (elastic_search env _) as [results | e]; [| reflexivity].
  destruct (shape_response _ _ _ _ _ results); reflexivity.
Qed.

Lemma catch_block_run (e : JsError) (w : World) :
  catch_block e w =
  (Normal (mkReply 500 (Failure "Internal server error" (message e))),
   mkWorld (clock_reads w) (searches w)
     (error_log w ++ [("Error in get_datapoints_histogram:", e)])).
Proof. reflexivity. Qed.

(** Building the time range submits no search and logs nothing. *)
Lemma build_timeRange_quiet (env : Env) (query : Query.t) (w w1 : World)
    (r : completion TimeRange.t) :
  build_timeRange env query w = (r, w1) ->
  searches w1 = searches w /\ error_log w1 = error_log w.
Proof.
  unfold build_timeRange, timeRange_gte, timeRange_lte, bind, lift, ret,
    Date_now.
  destruct (given (Query.after query)), (given (Query.before query));
    repeat match goal with
           | |- context [JSDate.toISOString ?d] =>
               destruct (JSDate.toISOString d)
           end;
    cbn; intros H; inversion H; subst; cbn; auto.
Qed.

(** The fields of a shaped response that come from the request. *)
Lemma shape_response_fields (scope contractName tableName : string)
    (ic : IntervalConfig.t) (tr : TimeRange.t) (results : value)
    (response : Response.t) :
  shape_response scope contractName tableName ic tr results = Normal response ->
  Response.scope response = scope
  /\ Response.contract response = contractName
  /\ Response.table response = tableName
  /\ Response.interval response = IntervalConfig.interval ic
  /\ Response.time_range response
     = Window.mk (TimeRange.gte tr) (TimeRange.lte tr).
Proof.
  unfold shape_response, cbind.
  destruct (get results "hits"); [| discriminate].
  destruct (get results "aggregations") as [aggregations |]; [| discriminate].
  match goal with
  | |- match ?c with _ => _ end = _ -> _ => destruct c; [| discriminate]
  end.
  intros H. inversion H; subst. cbn. auto.
Qed.

(** The search request carries the four filters and the interval. *)
Lemma request_must_clauses (env : Env) (p : Params.t) (tr : TimeRange.t) :
  must_clauses (request_of env p tr) =
  [range_clause (TimeRange.gte tr) (TimeRange.lte tr);
   term "code" (Params.contractName p);
   term "table" (Params.tableName p);
   term "scope" (Params.scope p)].
Proof. reflexivity. Qed.

Lemma request_interval_of (env : Env) (p : Params.t) (tr : TimeRange.t) :
  request_interval (request_of env p tr)
  = VStr (IntervalConfig.interval (Params.intervalConfig p)).
Proof.
  unfold request_of, search_request, searchBody, dateHistogramConfig.
  destruct (IntervalConfig.type (Params.intervalConfig p)); reflexivity.
Qed.

Lemma get_non_nullish (v : value) (k : string) :
  is_nullish v = false -> get v k = Normal (get_opt v k).
Proof.
  destruct v; cbn; try discriminate; try reflexivity.
  intros _. now destruct (lookup k fields).
Qed.

Lemma get_opt_defined (v : value) (k : string) :
  get_opt v k <> VUndefined -> is_nullish v = false.
Proof. destruct v; cbn; congruence. Qed.

(** Every run ends in one of three ways: the time range could not be built,
    the one search or the shaping of its result failed, or the shaped
    response was sent. *)
Lemma handler_outcome (env : Env) (baseConfig : option Config.t)
    (query : Query.t) (w : World) :
  let p := parameters baseConfig query in
  (exists e w1 w',
      build_timeRange env query w = (Throw e, w1)
      /\ get_datapoints_histogram env baseConfig query w
         = (Normal (failure_reply e), w')
      /\ searches w' = searches w)
  \/ (exists timeRange w1 w',
         build_timeRange env query w = (Normal timeRange, w1)
         /\ searches w' = (searches w ++ [request_of env p timeRange])%list
         /\ ((exists e,
                 get_datapoints_histogram env baseConfig query w
                 = (Normal (failure_reply e), w'))
             \/ (exists results response,
                    elastic_search env (request_of env p timeRange)
                    = Normal results
                    /\ shape_response (Params.scope p) (Params.contractName p)
                         (Params.tableName p) (Params.intervalConfig p)
                         timeRange results = Normal response
                    /\ get_datapoints_histogram env baseConfig query w
                       = (Normal (mkReply 200 (Ok response)), w')))).
Proof.
  intros p. rewrite handler_unfold. fold p. cbv zeta.
  destruct (build_timeRange env query w) as [[timeRange | e] w1] eqn:Htr.
  - right. destruct (build_timeRange_quiet _ _ _ _ _ Htr) as [Hs _].
    exists timeRange, w1.
    destruct (elastic_search env (request_of env p timeRange))
      as [results | e] eqn:Hsearch.
    + destruct (shape_response _ _ _ _ timeRange results)
        as [response | e] eqn:Hshape.
      * eexists. split; [reflexivity |]. split; cycle 1.
        -- right. exists results, response. auto.
        -- cbn. now rewrite Hs.
      * eexists. split; [reflexivity |]. split; cycle 1.
        -- left. exists e. rewrite catch_block_run. reflexivity.
        -- cbn. now rewrite Hs.
    + eexists. split; [reflexivity |]. split; cycle 1.
      * left. exists e. rewrite catch_block_run. reflexivity.
      * cbn. now rewrite Hs.
  - left. destruct (build_timeRange_quiet _ _ _ _ _ Htr) as [Hs _].
    exists e, w1. eexists. split; [reflexivity |]. split.
    + rewrite catch_block_run. reflexivity.
    + exact Hs.
Qed.

(** What a run that sent a shaped response went through. *)
Lemma handler_ok_inv (env : Env) (baseConfig : option Config.t)
    (query : Query.t) (w w' : World) (reply : Reply) (response : Response.t) :
  get_datapoints_histogram env baseConfig query w = (Normal reply, w') ->
  payload reply = Ok response ->
  let p := parameters baseConfig query in
  exists timeRange w1 results,
    build_timeRange env query w = (Normal timeRange, w1)
    /\ elastic_search env (request_of env p timeRange) = Normal results
    /\ shape_response (Params.scope p) (Params.contractName p)
         (Params.tableName p) (Params.intervalConfig p)
         timeRange results = Normal response.
Proof.
  intros Hrun Hok p.
  destruct (handler_outcome env baseConfig query w)
    as [(e & w1 & w2 & _ & H & _) | (tr & w1 & w2 & Htr & _ & [[e H] | H])].
  - rewrite H in Hrun. inversion Hrun; subst. discriminate Hok.
  - rewrite H in Hrun. inversion Hrun; subst. discriminate Hok.
  - destruct H as (results & response' & Hsearch & Hshape & H).
    rewrite H in Hrun. inversion Hrun; subst. cbn in Hok.
    inversion Hok; subst. exists tr, w1, results. auto.
Qed.

(** The searches a run submits: none, or the one request built from the
    parameters and the time range. *)
Lemma handler_submits (env : Env) (baseConfig : option Config.t)
    (query : Query.t) (w w' : World) (reply : Reply) :
  get_datapoints_histogram env baseConfig query w = (Normal reply, w') ->
  exists submitted,
    searches w' = (searches w ++ submitted)%list
    /\ forall request, In request submitted ->
         exists timeRange w1,
           build_timeRange env query w = (Normal timeRange, w1)
           /\ request
              = request_of env (parameters baseConfig query) timeRange.
Proof.
  intros Hrun.
  destruct (handler_outcome env baseConfig query w)
    as [(e & w1 & w2 & _ & H & Hs)
       | (tr & w1 & w2 & Htr & Hs & H)].
  - rewrite H in Hrun. inversion Hrun; subst.
    exists []. rewrite app_nil_r. split; [exact Hs | intros ? []].
  - assert (Hw : w2 = w').
    { destruct H as [[e H] | (results & response & _ & _ & H)];
        rewrite H in Hrun; now inversion Hrun. }
    subst w2. exists [request_of env (parameters baseConfig query) tr].
    split; [exact Hs |].
    intros request [<- | []]. exists tr, w1. auto.
Qed.

(** *** The interval of a request *)

Lemma parameters_interval_unlisted (baseConfig : option Config.t)
    (query : Query.t) (tok : string) :
  Query.interval query = Some tok ->
  ~ In tok CALENDAR_INTERVALS -> ~ In tok FIXED_INTERVALS ->
  IntervalConfig.interval (Params.intervalConfig (parameters baseConfig query))
  = "1h".
Proof.
  intros Hq Hc Hf. unfold parameters. cbn [Params.intervalConfig].
  rewrite Hq. unfold str_or.
  destruct (string_truthy tok).
  - now rewrite classify_unlisted.
  - reflexivity.
Qed.

(** C10: whatever the request, the interval of the search it submits and
    the interval of the response it sends are on one of the two
    whitelists; a token of the request that is on neither is not echoed,
    the response then says 1h. *)
Theorem response_interval_whitelisted (env : Env)
    (baseConfig : option Config.t) (query : Query.t) (w w' : World)
    (reply : Reply) :
  get_datapoints_histogram env baseConfig query w = (Normal reply, w') ->
  (exists submitted,
      searches w' = (searches w ++ submitted)%list
      /\ forall request, In request submitted ->
           exists i, request_interval request = VStr i
                     /\ In i (CALENDAR_INTERVALS ++ FIXED_INTERVALS)%list)
  /\ (forall response, payload reply = Ok response ->
        In (Response.interval response)
           (CALENDAR_INTERVALS ++ FIXED_INTERVALS)%list)
  /\ (forall tok response,
        Query.interval query = Some tok ->
        ~ In tok CALENDAR_INTERVALS -> ~ In tok FIXED_INTERVALS ->
        payload reply = Ok response ->
        Response.interval response = "1h").
Proof.
  intros Hrun. split; [| split].
  - destruct (handler_submits _ _ _ _ _ _ Hrun) as (submitted & Hs & Hsub).
    exists submitted. split; [exact Hs |].
    intros request Hin. destruct (Hsub request Hin) as (tr & w1 & _ & ->).
    eexists. split; [apply request_interval_of |].
    apply classify_whitelisted.
  - intros response Hok.
    destruct (handler_ok_inv _ _ _ _ _ _ _ Hrun Hok)
      as (tr & w1 & results & _ & _ & Hshape).
    apply shape_response_fields in Hshape.
    destruct Hshape as (_ & _ & _ & -> & _).
    apply classify_whitelisted.
  - intros tok response Hq Hc Hf Hok.
    destruct (handler_ok_inv _ _ _ _ _ _ _ Hrun Hok)
      as (tr & w1 & results & _ & _ & Hshape).
    apply shape_response_fields in Hshape.
    destruct Hshape as (_ & _ & _ & -> & _).
    now apply parameters_interval_unlisted with (tok := tok).
Qed.

Lemma response_interval_whitelisted_witness :
  exists response w',
    get_datapoints_histogram (Sample.env_of Sample.five_hits) None
      Sample.odd_interval_query Sample.fresh
    = (Normal (mkReply 200 (Ok response)), w')
    /\ Response.interval response = "1h".
Proof.
  eexists. eexists. split; [reflexivity |].
  eapply (response_interval_whitelisted (Sample.env_of Sample.five_hits)
            None Sample.odd_interval_query Sample.fresh).
  - reflexivity.
  - reflexivity.
  - intros H. apply includes_In in H. vm_compute in H. discriminate H.
  - intros H. apply includes_In in H. vm_compute in H. discriminate H.
  - reflexivity.
Defined.

(** *** Defaults of scope, contract and table *)



(** *** Failures *)



(** *** Response shaping *)

Lemma nullish_falsy (v : value) : is_nullish v = true -> truthy v = false.
Proof. destruct v; cbn; congruence. Qed.

Lemma non_nullish_defined (v : value) :
  is_nullish v = false -> v <> VUndefined.
Proof. destruct v; cbn; congruence. Qed.

Lemma shape_response_no_buckets (scope contractName tableName : string)
    (ic : IntervalConfig.t) (tr : TimeRange.t) (results : value) :
  is_nullish results = false ->
  reported_buckets results = VArr []
  \/ truthy (reported_buckets results) = false ->
  shape_response scope contractName tableName ic tr results
  = Normal (Response.mk 0 scope contractName tableName
              (IntervalConfig.interval ic)
              (Window.mk (TimeRange.gte tr) (TimeRange.lte tr))
              (or_else (reported_total results) (VNum 0)) []).
Proof.
  intros Hres Hb. unfold shape_response.
  rewrite !(get_non_nullish results) by exact Hres. cbn [cbind].
  fold (reported_buckets results). fold (reported_total results).
  destruct Hb as [Hb | Hb].
  - rewrite Hb. cbn [truthy].
    assert (Hh : is_nullish (get_opt (get_opt results "aggregations")
                               "histogram") = false).
    { apply get_opt_defined with (k := "buckets").
      unfold reported_buckets in Hb. rewrite Hb. discriminate. }
    assert (Ha : is_nullish (get_opt results "aggregations") = false).
    { apply get_opt_defined with (k := "histogram").
      now apply non_nullish_defined. }
    rewrite (get_non_nullish _ "histogram" Ha). cbn [cbind].
    rewrite (get_non_nullish _ "buckets" Hh). cbn [cbind].
    fold (reported_buckets results). rewrite Hb. reflexivity.
  - rewrite Hb. reflexivity.
Qed.

(** C6: when the store's response has an empty list of buckets, or no
    buckets or aggregation section at all, the handler sends a response
    with an empty histogram whose total_documents is the store's match
    total, and 0 when the store reports none. *)
Theorem empty_histogram (env : Env) (baseConfig : option Config.t)
    (query : Query.t) (w w1 : World) (timeRange : TimeRange.t)
    (results : value) :
  build_timeRange env query w = (Normal timeRange, w1) ->
  elastic_search env
    (request_of env (parameters baseConfig query) timeRange)
  = Normal results ->
  is_nullish results = false ->
  reported_buckets results = VArr []
  \/ is_nullish (reported_buckets results) = true ->
  exists response w',
    get_datapoints_histogram env baseConfig query w
    = (Normal (mkReply 200 (Ok response)), w')
    /\ Response.histogram response = []
    /\ (truthy (reported_total results) = true ->
        Response.total_documents response = reported_total results)
    /\ (reported_total results = VNum 0 ->
        Response.total_documents response = VNum 0)
    /\ (is_nullish (reported_total results) = true ->
        Response.total_documents response = VNum 0).
Proof.
  intros Htr Hsearch Hres Hb.
  rewrite handler_unfold. cbv zeta. rewrite Htr, Hsearch.
  rewrite shape_response_no_buckets;
    [| exact Hres | destruct Hb as [Hb | Hb]; [now left | right;
                                               now apply nullish_falsy]].
  eexists. eexists. split; [reflexivity |]. cbn.
  split; [reflexivity |]. unfold or_else. repeat split.
  - intros Ht. now rewrite Ht.
  - intros Ht. now rewrite Ht.
  - intros Ht. now rewrite (nullish_falsy _ Ht).
Qed.

Lemma empty_histogram_witness :
  exists response w',
    get_datapoints_histogram (Sample.env_of Sample.five_hits) None
      Sample.no_query Sample.fresh
    = (Normal (mkReply 200 (Ok response)), w')
    /\ Response.histogram response = []
    /\ Response.total_documents response = VNum 5.
Proof.
  destruct (empty_histogram (Sample.env_of Sample.five_hits) None
              Sample.no_query Sample.fresh (mkWorld 2 [] [])
              (TimeRange.mk "1969-12-31T00:00:01.000Z"
                 "1970-01-01T00:00:01.001Z")
              (VObj [("hits", VObj [("total", VNum 5)])])
              eq_refl eq_refl eq_refl (or_intror eq_refl))
    as (response & w' & Hrun & Hh & Ht & _).
  exists response, w'. split; [exact Hrun |]. split; [exact Hh |].
  apply Ht. reflexivity.
Defined.

(** The shape of a bucket that is an object: the timestamp is the key text,
    or the raw key when there is no text; each statistic is the [value] of
    its sub-aggregation, or null when that is falsy. *)
Lemma shape_bucket_object (fields : list (string * value)) :
  let bucket := VObj fields in
  let stat k := or_else (get_opt (get_opt bucket k) "value") VNull in
  shape_bucket bucket
  = Normal (Bucket.mk
              (or_else (get_opt bucket "key_as_string") (get_opt bucket "key"))
              (get_opt bucket "doc_count")
              (stat "average_price") (stat "min_price") (stat "max_price")
              (stat "median_price")).
Proof.
  cbv zeta. unfold shape_bucket, statistic.
  rewrite !(get_non_nullish (VObj fields)) by reflexivity. cbn [cbind].
  unfold or_else.
  destruct (truthy (get_opt (VObj fields) "key_as_string")); reflexivity.
Qed.

(** Each statistic of a shaped bucket is the store's value when that value
    is truthy, and null when the store reports none. *)
Lemma statistic_truthy (bucket : value) (k : string) :
  is_nullish bucket = false ->
  truthy (get_opt (get_opt bucket k) "value") = true ->
  statistic bucket k = Normal (get_opt (get_opt bucket k) "value").
Proof.
  intros Hb Ht. unfold statistic. rewrite (get_non_nullish _ _ Hb).
  cbn [cbind]. unfold or_else. now rewrite Ht.
Qed.

Lemma statistic_missing (bucket : value) (k : string) :
  is_nullish bucket = false ->
  is_nullish (get_opt (get_opt bucket k) "value") = true ->
  statistic bucket k = Normal VNull.
Proof.
  intros Hb Ht. unfold statistic. rewrite (get_non_nullish _ _ Hb).
  cbn [cbind]. unfold or_else. now rewrite (nullish_falsy _ Ht).
Qed.

(** The example of the specification: an average of 10 and no median. *)
Example bucket_without_median_shaped :
  shape_bucket Sample.bucket_without_median
  = Normal (Bucket.mk (VNum 1704067200000) (VNum 3) (VNum 10) VNull VNull
              VNull).
Proof. reflexivity. Qed.

(** C2 fails on the code: a statistic that the store reports as 0 is
    shaped as null, here the minimum of a bucket whose other statistics are
    kept. *)
Theorem zero_statistic_shaped_null :
  get_opt (get_opt Sample.bucket_with_zero "min_price") "value" = VNum 0
  /\ shape_bucket Sample.bucket_with_zero
     = Normal (Bucket.mk (VNum 1704067200000) (VNum 3) (VNum 10) VNull
                 (VNum 20) (VNum 10)).
Proof. split; reflexivity. Qed.

(** *** The delta handler *)

Lemma lookup_set_same (k : string) (v : value) (fields : list (string * value)) :
  lookup k (set k v fields) = Some v.
Proof.
  induction fields as [| [k' v'] rest IH]; cbn.
  - now rewrite String.eqb_refl.
  - destruct (String.eqb k k') eqn:E; cbn.
    + now rewrite String.eqb_refl.
    + now rewrite E.
Qed.

Lemma lookup_set_other (k k0 : string) (v : value)
    (fields : list (string * value)) :
  String.eqb k k0 = false -> lookup k (set k0 v fields) = lookup k fields.
Proof.
  intros Hne. induction fields as [| [k' v'] rest IH]; cbn.
  - now rewrite Hne.
  - destruct (String.eqb k0 k') eqn:E; cbn.
    + apply String.eqb_eq in E. subst k'. now rewrite Hne.
    + now rewrite IH.
Qed.

Lemma lookup_delete_same (k : string) (fields : list (string * value)) :
  lookup k (delete k fields) = None.
Proof.
  induction fields as [| [k' v'] rest IH]; cbn; [reflexivity |].
  destruct (String.eqb k k') eqn:E; cbn; [exact IH | now rewrite E].
Qed.

Lemma lookup_delete_other (k k0 : string) (fields : list (string * value)) :
  String.eqb k k0 = false -> lookup k (delete k0 fields) = lookup k fields.
Proof.
  intros Hne. induction fields as [| [k' v'] rest IH]; cbn; [reflexivity |].
  destruct (String.eqb k0 k') eqn:E; cbn.
  - apply String.eqb_eq in E. subst k'. now rewrite Hne.
  - now rewrite IH.
Qed.

Lemma truthy_non_nullish (v : value) : truthy v = true -> is_nullish v = false.
Proof. destruct v; cbn; congruence. Qed.

(** C9: for a delta record whose data has truthy value, median and owner
    fields (neither absent nor null, empty, zero or false), the handler
    registered for the configured table stores the object with exactly the
    fields owner, value and median under the key made of an at sign and the
    table name, removes the data field, and leaves every other field as it
    was. *)
Theorem delta_handler_rewrites (tableName : string)
    (delta : list (string * value)) (data : value) :
  lookup "data" delta = Some data ->
  truthy (get_opt data "value") = true ->
  truthy (get_opt data "median") = true ->
  truthy (get_opt data "owner") = true ->
  exists delta',
    delta_handler tableName delta = Normal delta'
    /\ lookup ("@" ++ tableName) delta'
       = Some (VObj [("owner", get_opt data "owner");
                     ("value", get_opt data "value");
                     ("median", get_opt data "median")])
    /\ lookup "data" delta' = None
    /\ (forall k, String.eqb k "data" = false ->
                  String.eqb k ("@" ++ tableName) = false ->
                  lookup k delta' = lookup k delta).
Proof.
  intros Hdata Hv Hm Ho.
  assert (Hn : is_nullish data = false).
  { apply get_opt_defined with (k := "value").
    apply non_nullish_defined. now apply truthy_non_nullish. }
  unfold delta_handler. cbn [get]. rewrite Hdata. cbn [cbind].
  unfold complete_datapoint.
  rewrite !(get_non_nullish data) by exact Hn. cbn [cbind].
  rewrite Hv. cbn [cbind]. rewrite Hm. cbn [cbind]. rewrite Ho.
  eexists. split; [reflexivity |]. split; [| split].
  - rewrite lookup_delete_other by reflexivity. apply lookup_set_same.
  - apply lookup_delete_same.
  - intros k Hk1 Hk2.
    rewrite lookup_delete_other by exact Hk1.
    now apply lookup_set_other.
Qed.

Lemma delta_handler_rewrites_witness :
  exists delta',
    delta_handler "datapoints" Sample.datapoint_delta = Normal delta'
    /\ lookup "@datapoints" delta'
       = Some (VObj [("owner", VStr "oracle1"); ("value", VNum 1234);
                     ("median", VNum 1230)])
    /\ lookup "data" delta' = None.
Proof.
  destruct (delta_handler_rewrites "datapoints" Sample.datapoint_delta
              (VObj [("id", VNum 7); ("owner", VStr "oracle1");
                     ("value", VNum 1234); ("median", VNum 1230);
                     ("timestamp", VStr "2024-01-01T00:00:00.000")])
              eq_refl eq_refl eq_refl eq_refl)
    as (delta' & Hrun & Hobj & Hdata & _).
  exists delta'. auto.
Defined.

(** The handler the constructor registers is [delta_handler] for the
    configured table, and for datapoints when none is configured. *)
Lemma constructor_registers (config : Config.t) :
  exists h,
    constructor config = [h]
    /\ DeltaHandler.table h = str_or (Config.table config) "datapoints"
    /\ DeltaHandler.handler h = delta_handler (DeltaHandler.table h).
Proof. eexists. split; [reflexivity |]. split; reflexivity. Qed.

(** *** The time window *)

Lemma window_of_timeRange (env : Env) (baseConfig : option Config.t)
    (query : Query.t) (w w1 w' : World) (timeRange : TimeRange.t)
    (reply : Reply) :
  build_timeRange env query w = (Normal timeRange, w1) ->
  get_datapoints_histogram env baseConfig query w = (Normal reply, w') ->
  (exists submitted,
      searches w' = (searches w ++ submitted)%list
      /\ forall request, In request submitted ->
           In (range_clause (TimeRange.gte timeRange)
                 (TimeRange.lte timeRange))
              (must_clauses request))
  /\ (forall response, payload reply = Ok response ->
        Response.time_range response
        = Window.mk (TimeRange.gte timeRange) (TimeRange.lte timeRange)).
Proof.
  intros Htr Hrun. split.
  - destruct (handler_submits _ _ _ _ _ _ Hrun) as (submitted & Hs & Hreq).
    exists submitted. split; [exact Hs |].
    intros request Hin. destruct (Hreq request Hin) as (tr & w2 & Htr' & ->).
    rewrite Htr in Htr'. inversion Htr'; subst.
    rewrite request_must_clauses. now left.
  - intros response Hok.
    destruct (handler_ok_inv _ _ _ _ _ _ _ Hrun Hok)
      as (tr & w2 & results & Htr' & _ & Hshape).
    rewrite Htr in Htr'. inversion Htr'; subst.
    now apply shape_response_fields in Hshape.
Qed.

Lemma build_timeRange_explicit (env : Env) (query : Query.t) (w : World) :
  Query.after query = Some "2024-01-01T00:00:00Z" ->
  Query.before query = Some "2024-01-02T00:00:00Z" ->
  build_timeRange env query w
  = (Normal (TimeRange.mk "2024-01-01T00:00:00.000Z"
               "2024-01-02T00:00:00.000Z"), w).
Proof.
  intros Ha Hb. unfold build_timeRange, timeRange_gte, timeRange_lte.
  rewrite Ha, Hb. reflexivity.
Qed.

(** C3, as stated, fails: for the bounds 2024-01-01T00:00:00Z and
    2024-01-02T00:00:00Z the response carries the canonical texts, which
    have a milliseconds field, not the supplied strings. *)
Lemma explicit_window_not_verbatim :
  exists response w',
    get_datapoints_histogram (Sample.env_of Sample.five_hits) None
      Sample.bounded_query Sample.fresh
    = (Normal (mkReply 200 (Ok response)), w')
    /\ Window.from (Response.time_range response)
       <> "2024-01-01T00:00:00Z"
    /\ Window.to (Response.time_range response)
       <> "2024-01-02T00:00:00Z".
Proof.
  eexists. eexists. split; [reflexivity |].
  split; intros H; vm_compute in H; discriminate H.
Qed.

(** C3, amended: for the bounds 2024-01-01T00:00:00Z and
    2024-01-02T00:00:00Z the window of the search filter and of the
    response is 2024-01-01T00:00:00.000Z to 2024-01-02T00:00:00.000Z, the
    canonical texts of the same two instants. *)
Theorem explicit_window_canonical (env : Env) (baseConfig : option Config.t)
    (query : Query.t) (w w' : World) (reply : Reply) :
  Query.after query = Some "2024-01-01T00:00:00Z" ->
  Query.before query = Some "2024-01-02T00:00:00Z" ->
  get_datapoints_histogram env baseConfig query w = (Normal reply, w') ->
  (exists submitted,
      searches w' = (searches w ++ submitted)%list
      /\ forall request, In request submitted ->
           In (range_clause "2024-01-01T00:00:00.000Z"
                 "2024-01-02T00:00:00.000Z")
              (must_clauses request))
  /\ (forall response, payload reply = Ok response ->
        Response.time_range response
        = Window.mk "2024-01-01T00:00:00.000Z" "2024-01-02T00:00:00.000Z")
  /\ JSDate.of_string (host_parse env) "2024-01-01T00:00:00.000Z"
     = JSDate.of_string (host_parse env) "2024-01-01T00:00:00Z"
  /\ JSDate.of_string (host_parse env) "2024-01-02T00:00:00.000Z"
     = JSDate.of_string (host_parse env) "2024-01-02T00:00:00Z".
Proof.
  intros Ha Hb Hrun.
  destruct (window_of_timeRange env baseConfig query w w w' _ reply
              (build_timeRange_explicit env query w Ha Hb) Hrun)
    as [Hreq Hresp].
  split; [exact Hreq |]. split; [exact Hresp |]. split; reflexivity.
Qed.

Lemma explicit_window_canonical_witness :
  exists response w',
    get_datapoints_histogram (Sample.env_of Sample.five_hits) None
      Sample.bounded_query Sample.fresh
    = (Normal (mkReply 200 (Ok response)), w')
    /\ Response.time_range response
       = Window.mk "2024-01-01T00:00:00.000Z" "2024-01-02T00:00:00.000Z".
Proof.
  eexists. eexists. split; [reflexivity |].
  eapply (explicit_window_canonical (Sample.env_of Sample.five_hits) None
            Sample.bounded_query Sample.fresh); reflexivity.
Defined.

Lemma build_timeRange_default (env : Env) (query : Query.t) (w : World) :
  given (Query.after query) = None ->
  given (Query.before query) = None ->
  Z.abs (clock env (clock_reads w) - 86400000) <= max_time ->
  Z.abs (clock env (S (clock_reads w))) <= max_time ->
  build_timeRange env query w
  = (Normal (TimeRange.mk
               (JSDate.iso_string (clock env (clock_reads w) - 86400000))
               (JSDate.iso_string (clock env (S (clock_reads w))))),
     mkWorld (S (S (clock_reads w))) (searches w) (error_log w)).
Proof.
  intros Ha Hb H1 H2. unfold build_timeRange, timeRange_gte, timeRange_lte.
  rewrite Ha, Hb. unfold bind, Date_now, lift, ret, JSDate.of_number,
    JSDate.TimeClip.
  change (24 * 60 * 60 * 1000) with 86400000. cbn [clock_reads searches error_log].
  apply Z.leb_le in H1, H2. unfold max_time in H1, H2.
  rewrite H1, H2. reflexivity.
Qed.

Lemma digit_not_dot (d : Z) : Ascii.eqb (JSDate.digit d) "." = false.
Proof.
  unfold JSDate.digit.
  assert (H : 0 <= d mod 10 < 10) by (apply Z.mod_pos_bound; lia).
  assert (E : d mod 10 = 0 \/ d mod 10 = 1 \/ d mod 10 = 2 \/ d mod 10 = 3
              \/ d mod 10 = 4 \/ d mod 10 = 5 \/ d mod 10 = 6
              \/ d mod 10 = 7 \/ d mod 10 = 8 \/ d mod 10 = 9) by lia.
  repeat destruct E as [E | E]; rewrite E; reflexivity.
Qed.

(** A canonical timestamp ends in its milliseconds and the designator Z. *)
Lemma after_dot_iso_string (t : Z) :
  after_dot (JSDate.iso_string t)
  = (JSDate.pad3 (JSDate.msFromTime t) ++ "Z")%string.
Proof.
  unfold JSDate.iso_string, JSDate.year_string.
  destruct ((0 <=? JSDate.YearFromTime t) && (JSDate.YearFromTime t <=? 9999));
    [| destruct (JSDate.YearFromTime t <? 0)];
    repeat progress
      (cbn [append after_dot JSDate.pad2 JSDate.pad3 JSDate.pad4 JSDate.pad6
              Ascii.eqb Bool.eqb];
       rewrite ?digit_not_dot);
    reflexivity.
Qed.

Lemma msFromTime_day_before (t : Z) :
  JSDate.msFromTime (t - 86400000) = JSDate.msFromTime t.
Proof.
  unfold JSDate.msFromTime, JSDate.msPerSecond.
  replace (t - 86400000) with (t + (-86400) * 1000) by lia.
  apply Z.mod_add. lia.
Qed.

(** C7, as stated, fails: the handler reads the clock twice, once for each
    bound, and when the clock has advanced between the two readings no
    single instant gives both bounds. *)
Lemma default_window_reads_clock_twice :
  exists response w',
    get_datapoints_histogram (Sample.env_of Sample.five_hits) None
      Sample.no_query Sample.fresh
    = (Normal (mkReply 200 (Ok response)), w')
    /\ ~ (exists now,
             Window.from (Response.time_range response)
             = JSDate.iso_string (now - 24 * 60 * 60 * 1000)
             /\ Window.to (Response.time_range response)
                = JSDate.iso_string now).
Proof.
  eexists. eexists. split; [reflexivity |].
  cbn [Response.time_range Window.from Window.to].
  intros (now & Hfrom & Hto).
  change (24 * 60 * 60 * 1000) with 86400000 in Hfrom.
  apply (f_equal after_dot) in Hfrom, Hto.
  rewrite after_dot_iso_string in Hfrom, Hto.
  rewrite msFromTime_day_before in Hfrom.
  rewrite <- Hfrom in Hto. vm_compute in Hto. discriminate Hto.
Qed.

(** C7, amended: when the request gives neither bound, the lower bound is
    the canonical text of the first clock reading minus 24 hours and the
    upper bound is the canonical text of the second clock reading, taken
    after the first; both appear in the search filter and in the
    response. *)
Theorem default_window (env : Env) (baseConfig : option Config.t)
    (query : Query.t) (w w' : World) (reply : Reply) :
  given (Query.after query) = None ->
  given (Query.before query) = None ->
  Z.abs (clock env (clock_reads w) - 86400000) <= max_time ->
  Z.abs (clock env (S (clock_reads w))) <= max_time ->
  get_datapoints_histogram env baseConfig query w = (Normal reply, w') ->
  (exists submitted,
      searches w' = (searches w ++ submitted)%list
      /\ forall request, In request submitted ->
           In (range_clause
                 (JSDate.iso_string (clock env (clock_reads w) - 86400000))
                 (JSDate.iso_string (clock env (S (clock_reads w)))))
              (must_clauses request))
  /\ (forall response, payload reply = Ok response ->
        Response.time_range response
        = Window.mk
            (JSDate.iso_string (clock env (clock_reads w) - 86400000))
            (JSDate.iso_string (clock env (S (clock_reads w))))).
Proof.
  intros Ha Hb H1 H2 Hrun.
  exact (window_of_timeRange env baseConfig query w _ w' _ reply
           (build_timeRange_default env query w Ha Hb H1 H2) Hrun).
Qed.

Lemma default_window_witness :
  exists response w',
    get_datapoints_histogram (Sample.env_of Sample.five_hits) None
      Sample.no_query Sample.fresh
    = (Normal (mkReply 200 (Ok response)), w')
    /\ Response.time_range response
       = Window.mk "1969-12-31T00:00:01.000Z" "1970-01-01T00:00:01.001Z".
Proof.
  eexists. eexists. split; [reflexivity |].
  eapply (default_window (Sample.env_of Sample.five_hits) None
            Sample.no_query Sample.fresh).
  - reflexivity.
  - reflexivity.
  - vm_compute. discriminate.
  - vm_compute. discriminate.
  - reflexivity.
  - reflexivity.
Defined.

(* ===================================================================== *)
(** ** Further properties of the code *)
(* ===================================================================== *)

(** *** The classifier *)

(** X1: the classifier is idempotent: the interval it returns classifies
    to the same result, so the interval echoed in a response can be sent
    back as the interval of a request. *)
Theorem getIntervalConfig_idempotent (tok : option string) :
  getIntervalConfig
    (Some (IntervalConfig.interval (getIntervalConfig tok)))
  = getIntervalConfig tok.
Proof.
  destruct tok as [t |]; [| reflexivity].
  unfold getIntervalConfig at 2 3.
  destruct (negb (string_truthy t)); [reflexivity |].
  destruct (includes CALENDAR_INTERVALS t) eqn:Hc.
  - cbn [IntervalConfig.interval]. apply classify_calendar.
    now apply includes_In.
  - destruct (includes FIXED_INTERVALS t) eqn:Hf; [| reflexivity].
    cbn [IntervalConfig.interval]. apply classify_fixed_only.
    + now apply includes_In.
    + now apply includes_not_In.
Qed.

(** X2: the classifier answers with the fixed kind exactly for the tokens
    that are on the fixed whitelist and not on the calendar whitelist, and
    then with the token itself; every other argument gets the calendar
    kind. *)
Theorem fixed_kind_iff (tok : option string) :
  (IntervalConfig.type (getIntervalConfig tok) = fixed
   <-> exists t, tok = Some t /\ In t FIXED_INTERVALS
                 /\ ~ In t CALENDAR_INTERVALS)
  /\ (IntervalConfig.type (getIntervalConfig tok) = fixed ->
      Some (IntervalConfig.interval (getIntervalConfig tok)) = tok).
Proof.
  assert (H : IntervalConfig.type (getIntervalConfig tok) = fixed ->
              exists t, tok = Some t /\ In t FIXED_INTERVALS
                        /\ ~ In t CALENDAR_INTERVALS).
  { destruct tok as [t |]; [| discriminate].
    unfold getIntervalConfig.
    destruct (negb (string_truthy t)); [discriminate |].
    destruct (includes CALENDAR_INTERVALS t) eqn:Hc; [discriminate |].
    destruct (includes FIXED_INTERVALS t) eqn:Hf; [| discriminate].
    intros _. exists t. split; [reflexivity |].
    split; [now apply includes_In | now apply includes_not_In]. }
  split; [split |].
  - exact H.
  - intros (t & -> & Hf & Hc). now rewrite classify_fixed_only.
  - intros Hk. destruct (H Hk) as (t & -> & Hf & Hc).
    now rewrite classify_fixed_only.
Qed.

Lemma fixed_kind_iff_witness :
  Some (IntervalConfig.interval (getIntervalConfig (Some "15m")))
  = Some "15m".
Proof.
  apply (proj2 (fixed_kind_iff (Some "15m"))). reflexivity.
Defined.

(** *** The search request *)

Lemma date_histogram_of_request (env : Env) (p : Params.t) (tr : TimeRange.t) :
  date_histogram_of (request_of env p tr)
  = dateHistogramConfig (Params.intervalConfig p).
Proof. reflexivity. Qed.

Lemma parameters_interval_default (baseConfig : option Config.t)
    (query : Query.t) :
  given (Query.interval query) = None
  \/ (exists t, Query.interval query = Some t
                /\ ~ In t CALENDAR_INTERVALS /\ ~ In t FIXED_INTERVALS) ->
  Params.intervalConfig (parameters baseConfig query)
  = IntervalConfig.mk "1h" calendar.
Proof.
  unfold parameters. cbn [Params.intervalConfig]. unfold given, str_or.
  intros [H | (t & Ht & Hc & Hf)].
  - destruct (Query.interval query) as [t |]; [| reflexivity].
    destruct (string_truthy t); [discriminate | reflexivity].
  - rewrite Ht. destruct (string_truthy t); [| reflexivity].
    now apply classify_unlisted.
Qed.

Lemma parameters_interval_listed (baseConfig : option Config.t)
    (query : Query.t) (t : string) :
  Query.interval query = Some t ->
  In t CALENDAR_INTERVALS \/ In t FIXED_INTERVALS ->
  Params.intervalConfig (parameters baseConfig query)
  = getIntervalConfig (Some t).
Proof.
  intros Ht Hin. unfold parameters. cbn [Params.intervalConfig].
  rewrite Ht. unfold str_or.
  destruct Hin as [H | H];
    [rewrite (calendar_truthy t H) | rewrite (fixed_truthy t H)];
    reflexivity.
Qed.

(** X3: the search carries the interval under the key of its kind and
    under that key only: calendar_interval for a token of the calendar
    whitelist, fixed_interval for a token that is only on the fixed
    whitelist, and calendar_interval 1h when the request has no interval or
    one that is on neither whitelist. *)
Theorem bucketing_key_matches_kind (env : Env) (baseConfig : option Config.t)
    (query : Query.t) (w w' : World) (reply : Reply) :
  get_datapoints_histogram env baseConfig query w = (Normal reply, w') ->
  exists submitted,
    searches w' = (searches w ++ submitted)%list
    /\ forall request, In request submitted ->
         (forall t, Query.interval query = Some t ->
                    In t CALENDAR_INTERVALS ->
                    get_opt (date_histogram_of request) "calendar_interval"
                    = VStr t
                    /\ get_opt (date_histogram_of request) "fixed_interval"
                       = VUndefined)
         /\ (forall t, Query.interval query = Some t ->
                       In t FIXED_INTERVALS -> ~ In t CALENDAR_INTERVALS ->
                       get_opt (date_histogram_of request) "fixed_interval"
                       = VStr t
                       /\ get_opt (date_histogram_of request)
                            "calendar_interval" = VUndefined)
         /\ (given (Query.interval query) = None
             \/ (exists t, Query.interval query = Some t
                           /\ ~ In t CALENDAR_INTERVALS
                           /\ ~ In t FIXED_INTERVALS) ->
             get_opt (date_histogram_of request) "calendar_interval"
             = VStr "1h"
             /\ get_opt (date_histogram_of request) "fixed_interval"
                = VUndefined).
Proof.
  intros Hrun.
  destruct (handler_submits _ _ _ _ _ _ Hrun) as (submitted & Hs & Hreq).
  exists submitted. split; [exact Hs |].
  intros request Hin. destruct (Hreq request Hin) as (tr & w1 & _ & ->).
  rewrite date_histogram_of_request. split; [| split].
  - intros t Ht Hc.
    rewrite (parameters_interval_listed _ _ t Ht (or_introl Hc)).
    rewrite (classify_calendar t Hc). split; reflexivity.
  - intros t Ht Hf Hc.
    rewrite (parameters_interval_listed _ _ t Ht (or_intror Hf)).
    rewrite (classify_fixed_only t Hf Hc). split; reflexivity.
  - intros H. rewrite (parameters_interval_default _ _ H). split; reflexivity.
Qed.

Lemma bucketing_key_matches_kind_witness :
  exists request,
    searches
      (snd (get_datapoints_histogram (Sample.env_of Sample.five_hits) None
              Sample.odd_interval_query Sample.fresh))
    = [request]
    /\ get_opt (date_histogram_of request) "calendar_interval" = VStr "1h"
    /\ get_opt (date_histogram_of request) "fixed_interval" = VUndefined.
Proof.
  destruct (bucketing_key_matches_kind (Sample.env_of Sample.five_hits) None
              Sample.odd_interval_query Sample.fresh _ _ eq_refl)
    as (submitted & Hs & Hreq).
  cbn [Sample.fresh searches app] in Hs.
  eexists. split; [reflexivity |].
  apply Hreq.
  - rewrite <- Hs. left. reflexivity.
  - right. exists "3m". split; [reflexivity |].
    split; intros H; apply includes_In in H; vm_compute in H; discriminate H.
Defined.

(** *** One request, one search *)






(** *** Clock readings and bounds *)

Lemma toISOString_throws (d : JSDate.Date) (e : JsError) :
  JSDate.toISOString d = Throw e -> e = RangeError "Invalid time value".
Proof. destruct d; cbn; intros H; now inversion H. Qed.

Lemma build_timeRange_reads (env : Env) (query : Query.t) (w w1 : World)
    (r : completion TimeRange.t) :
  build_timeRange env query w = (r, w1) ->
  (clock_reads w <= clock_reads w1
   <= clock_reads w + readings (Query.after query)
      + readings (Query.before query))%nat
  /\ (forall tr, r = Normal tr ->
        clock_reads w1
        = (clock_reads w + readings (Query.after query)
           + readings (Query.before query))%nat).
Proof.
  unfold build_timeRange, timeRange_gte, timeRange_lte, bind, lift, ret,
    Date_now, readings.
  destruct (given (Query.after query)), (given (Query.before query));
    repeat match goal with
           | |- context [JSDate.toISOString ?d] =>
               destruct (JSDate.toISOString d)
           end;
    cbn; intros H; inversion H; subst; cbn; split;
    try lia; intros tr Hr; try discriminate Hr; lia.
Qed.

(** X6: the handler reads the clock once for each bound the request does
    not give, never more: a request with both bounds never reads it, and a
    request that sends a shaped response has read it exactly once per
    missing bound. *)
Theorem clock_read_per_missing_bound (env : Env)
    (baseConfig : option Config.t) (query : Query.t) (w w' : World)
    (reply : Reply) :
  get_datapoints_histogram env baseConfig query w = (Normal reply, w') ->
  (clock_reads w <= clock_reads w'
   <= clock_reads w + readings (Query.after query)
      + readings (Query.before query))%nat
  /\ (forall response, payload reply = Ok response ->
        clock_reads w'
        = (clock_reads w + readings (Query.after query)
           + readings (Query.before query))%nat).
Proof.
  rewrite handler_unfold. cbv zeta.
  destruct (build_timeRange env query w) as [[tr | e] w1] eqn:Htr;
    destruct (build_timeRange_reads _ _ _ _ _ Htr) as [Hle Heq].
  - specialize (Heq tr eq_refl).
    destruct (elastic_search env _) as [results | e];
      [destruct (shape_response _ _ _ _ tr results) as [response | e] |];
      rewrite ?catch_block_run; intros H; inversion H; subst; cbn;
      (split; [lia | intros r Hok; try discriminate Hok; lia]).
  - rewrite catch_block_run. intros H. inversion H; subst. cbn.
    split; [lia | intros r Hok; discriminate Hok].
Qed.

Lemma clock_read_per_missing_bound_witness :
  clock_reads
    (snd (get_datapoints_histogram (Sample.env_of Sample.five_hits) None
            Sample.bounded_query Sample.fresh))
  = 0%nat.
Proof.
  refine (proj2 (clock_read_per_missing_bound
                   (Sample.env_of Sample.five_hits) None Sample.bounded_query
                   Sample.fresh _ _ eq_refl) _ eq_refl).
Defined.

(** X7: a bound that the request gives and that does not parse to a time
    value is not passed on: the request ends with status 500 and the
    message Invalid time value, and no search is submitted. *)
Theorem invalid_bound_rejected (env : Env) (baseConfig : option Config.t)
    (query : Query.t) (w : World) :
  (exists a, given (Query.after query) = Some a
             /\ JSDate.of_string (host_parse env) a = None)
  \/ (exists b, given (Query.before query) = Some b
                /\ JSDate.of_string (host_parse env) b = None) ->
  exists w',
    get_datapoints_histogram env baseConfig query w
    = (Normal (mkReply 500
                 (Failure "Internal server error" "Invalid time value")), w')
    /\ searches w' = searches w.
Proof.
  intros Hbad.
  assert (Hb : exists w1,
             build_timeRange env query w
             = (Throw (RangeError "Invalid time value"), w1)).
  { unfold build_timeRange, timeRange_gte, timeRange_lte, bind, lift, ret,
      Date_now.
    destruct Hbad as [(a & Ha & Hna) | (b & Hb & Hnb)].
    - rewrite Ha, Hna. cbn. eexists. reflexivity.
    - rewrite Hb, Hnb.
      destruct (given (Query.after query));
        match goal with
        | |- context [JSDate.toISOString ?d] =>
            destruct (JSDate.toISOString d) eqn:E
        end; cbn; try (apply toISOString_throws in E; subst);
        eexists; reflexivity. }
  destruct Hb as [w1 Hb]. rewrite handler_unfold. cbv zeta.
  rewrite Hb, catch_block_run. eexists. split; [reflexivity |].
  cbn. now destruct (build_timeRange_quiet _ _ _ _ _ Hb).
Qed.

Lemma invalid_bound_rejected_witness :
  exists w',
    get_datapoints_histogram (Sample.env_of Sample.five_hits) None
      (Query.mk None None (Some "garbage") None None) Sample.fresh
    = (Normal (mkReply 500
                 (Failure "Internal server error" "Invalid time value")), w')
    /\ searches w' = [].
Proof.
  apply (invalid_bound_rejected (Sample.env_of Sample.five_hits) None
           (Query.mk None None (Some "garbage") None None) Sample.fresh).
  left. exists "garbage". split; reflexivity.
Defined.

(** *** The histogram *)

Lemma shape_bucket_non_nullish (bucket : value) :
  is_nullish bucket = false -> shape_bucket bucket = Normal (shaped bucket).
Proof.
  intros Hb. unfold shape_bucket, statistic.
  rewrite !(get_non_nullish bucket) by exact Hb. cbn [cbind].
  unfold shaped, or_else.
  destruct (truthy (get_opt bucket "key_as_string")); reflexivity.
Qed.

Lemma shape_bucket_nullish (bucket : value) :
  is_nullish bucket = true ->
  exists e, shape_bucket bucket = Throw e /\ name e = "TypeError".
Proof.
  destruct bucket; cbn; try discriminate; intros _; eexists;
    (split; [reflexivity | reflexivity]).
Qed.

Lemma mapM_shape_all (buckets : list value) :
  Forall (fun b => is_nullish b = false) buckets ->
  mapM shape_bucket buckets = Normal (map shaped buckets).
Proof.
  induction 1 as [| b rest Hb _ IH]; [reflexivity |].
  cbn [mapM map]. rewrite (shape_bucket_non_nullish b Hb). cbn [cbind].
  rewrite IH. reflexivity.
Qed.

Lemma mapM_shape_some_null (buckets : list value) (b : value) :
  In b buckets -> is_nullish b = true ->
  exists e, mapM shape_bucket buckets = Throw e /\ name e = "TypeError".
Proof.
  intros Hin Hb. induction buckets as [| x rest IH]; [destruct Hin |].
  cbn [mapM]. destruct (is_nullish x) eqn:Hx.
  - destruct (shape_bucket_nullish x Hx) as (e & -> & He).
    exists e. split; [reflexivity | exact He].
  - rewrite (shape_bucket_non_nullish x Hx). cbn [cbind].
    destruct Hin as [-> | Hin]; [congruence |].
    destruct (IH Hin) as (e & -> & He).
    exists e. split; [reflexivity | exact He].
Qed.

Lemma reported_path_defined (results : value) :
  is_nullish (reported_buckets results) = false ->
  get (get_opt results "aggregations") "histogram"
  = Normal (get_opt (get_opt results "aggregations") "histogram")
  /\ get (get_opt (get_opt results "aggregations") "histogram") "buckets"
     = Normal (reported_buckets results).
Proof.
  intros Hb.
  assert (Hh : is_nullish (get_opt (get_opt results "aggregations")
                             "histogram") = false).
  { apply get_opt_defined with (k := "buckets").
    now apply non_nullish_defined. }
  assert (Ha : is_nullish (get_opt results "aggregations") = false).
  { apply get_opt_defined with (k := "histogram").
    now apply non_nullish_defined. }
  split; now apply get_non_nullish.
Qed.

(** The shaping of a response whose buckets are truthy. *)
Lemma shape_response_buckets (scope contractName tableName : string)
    (ic : IntervalConfig.t) (tr : TimeRange.t) (results : value) :
  is_nullish results = false ->
  truthy (reported_buckets results) = true ->
  shape_response scope contractName tableName ic tr results
  = cbind (array_map "results.aggregations.histogram.buckets" shape_bucket
             (reported_buckets results))
      (fun histogram =>
         Normal (Response.mk 0 scope contractName tableName
                   (IntervalConfig.interval ic)
                   (Window.mk (TimeRange.gte tr) (TimeRange.lte tr))
                   (or_else (reported_total results) (VNum 0)) histogram)).
Proof.
  intros Hres Hb. unfold shape_response.
  rewrite !(get_non_nullish results) by exact Hres. cbn [cbind].
  fold (reported_buckets results). fold (reported_total results).
  rewrite Hb.
  destruct (reported_path_defined results (truthy_non_nullish _ Hb))
    as [Hh Hbk].
  rewrite Hh. cbn [cbind]. rewrite Hbk. cbn [cbind]. reflexivity.
Qed.

Lemma handler_after_search (env : Env) (baseConfig : option Config.t)
    (query : Query.t) (w w1 : World) (tr : TimeRange.t) (results : value) :
  build_timeRange env query w = (Normal tr, w1) ->
  elastic_search env (request_of env (parameters baseConfig query) tr)
  = Normal results ->
  let p := parameters baseConfig query in
  exists w',
    get_datapoints_histogram env baseConfig query w
    = (match shape_response (Params.scope p) (Params.contractName p)
               (Params.tableName p) (Params.intervalConfig p) tr results with
       | Normal response => Normal (mkReply 200 (Ok response))
       | Throw e => Normal (failure_reply e)
       end, w').
Proof.
  intros Htr Hsearch p. rewrite handler_unfold. cbv zeta.
  rewrite Htr, Hsearch. fold p.
  destruct (shape_response _ _ _ _ tr results);
    rewrite ?catch_block_run; eexists; reflexivity.
Qed.

(** X8: when the store answers with an array of buckets, none of them null
    or undefined, the histogram of the response has one entry per bucket,
    in the order of the store, each shaped from its bucket alone; the
    total is the store's total, or 0 when that is falsy. *)
Theorem histogram_in_store_order (env : Env) (baseConfig : option Config.t)
    (query : Query.t) (w w1 : World) (tr : TimeRange.t) (results : value)
    (buckets : list value) :
  build_timeRange env query w = (Normal tr, w1) ->
  elastic_search env (request_of env (parameters baseConfig query) tr)
  = Normal results ->
  is_nullish results = false ->
  reported_buckets results = VArr buckets ->
  Forall (fun b => is_nullish b = false) buckets ->
  exists response w',
    get_datapoints_histogram env baseConfig query w
    = (Normal (mkReply 200 (Ok response)), w')
    /\ Response.histogram response = map shaped buckets
    /\ List.length (Response.histogram response) = List.length buckets
    /\ Response.total_documents response
       = or_else (reported_total results) (VNum 0).
Proof.
  intros Htr Hsearch Hres Hb Hall.
  destruct (handler_after_search env baseConfig query w w1 tr results
              Htr Hsearch) as [w' Hrun].
  rewrite shape_response_buckets in Hrun;
    [| exact Hres | now rewrite Hb].
  rewrite Hb in Hrun. cbn [array_map] in Hrun.
  rewrite (mapM_shape_all buckets Hall) in Hrun. cbn [cbind] in Hrun.
  eexists. exists w'. split; [exact Hrun |]. cbn.
  split; [reflexivity |]. split; [apply length_map | reflexivity].
Qed.

Lemma histogram_in_store_order_witness :
  exists response w',
    get_datapoints_histogram
      (Sample.env_of
         (fun _ =>
            Normal (VObj [("aggregations",
              VObj [("histogram",
                VObj [("buckets",
                  VArr [Sample.bucket_without_median;
                        Sample.bucket_with_zero])])])])))
      None Sample.bounded_query Sample.fresh
    = (Normal (mkReply 200 (Ok response)), w')
    /\ Response.histogram response
       = [shaped Sample.bucket_without_median;
          shaped Sample.bucket_with_zero].
Proof.
  destruct (histogram_in_store_order
              (Sample.env_of
                 (fun _ =>
                    Normal (VObj [("aggregations",
                      VObj [("histogram",
                        VObj [("buckets",
                          VArr [Sample.bucket_without_median;
                                Sample.bucket_with_zero])])])])))
              None Sample.bounded_query Sample.fresh Sample.fresh
              (TimeRange.mk "2024-01-01T00:00:00.000Z"
                 "2024-01-02T00:00:00.000Z")
              _ [Sample.bucket_without_median; Sample.bucket_with_zero]
              eq_refl eq_refl eq_refl eq_refl
              ltac:(repeat constructor))
    as (response & w' & Hrun & Hh & _).
  exists response, w'. split; [exact Hrun | exact Hh].
Defined.

(** X9: one null or undefined bucket anywhere in the store's array spoils
    the whole response: the request ends with status 500 and the message of
    a TypeError, and no part of the histogram is sent. *)
Theorem null_bucket_fails_request (env : Env) (baseConfig : option Config.t)
    (query : Query.t) (w w1 : World) (tr : TimeRange.t) (results : value)
    (buckets : list value) (b : value) :
  build_timeRange env query w = (Normal tr, w1) ->
  elastic_search env (request_of env (parameters baseConfig query) tr)
  = Normal results ->
  is_nullish results = false ->
  reported_buckets results = VArr buckets ->
  In b buckets -> is_nullish b = true ->
  exists e w',
    get_datapoints_histogram env baseConfig query w
    = (Normal (mkReply 500 (Failure "Internal server error" (message e))), w')
    /\ name e = "TypeError".
Proof.
  intros Htr Hsearch Hres Hb Hin Hnull.
  destruct (handler_after_search env baseConfig query w w1 tr results
              Htr Hsearch) as [w' Hrun].
  rewrite shape_response_buckets in Hrun;
    [| exact Hres | now rewrite Hb].
  rewrite Hb in Hrun. cbn [array_map] in Hrun.
  destruct (mapM_shape_some_null buckets b Hin Hnull) as (e & He & Hname).
  rewrite He in Hrun. cbn [cbind] in Hrun.
  exists e, w'. split; [exact Hrun | exact Hname].
Qed.

Lemma null_bucket_fails_request_witness :
  exists e w',
    get_datapoints_histogram
      (Sample.env_of
         (fun _ =>
            Normal (VObj [("aggregations",
              VObj [("histogram",
                VObj [("buckets",
                  VArr [Sample.bucket_without_median; VNull])])])])))
      None Sample.bounded_query Sample.fresh
    = (Normal (mkReply 500 (Failure "Internal server error" (message e))), w')
    /\ name e = "TypeError".
Proof.
  apply (null_bucket_fails_request
           (Sample.env_of
              (fun _ =>
                 Normal (VObj [("aggregations",
                   VObj [("histogram",
                     VObj [("buckets",
                       VArr [Sample.bucket_without_median; VNull])])])])))
           None Sample.bounded_query Sample.fresh Sample.fresh
           (TimeRange.mk "2024-01-01T00:00:00.000Z"
              "2024-01-02T00:00:00.000Z")
           _ [Sample.bucket_without_median; VNull] VNull
           eq_refl eq_refl eq_refl eq_refl (or_intror (or_introl eq_refl))
           eq_refl).
Defined.

(** X10: buckets that are truthy and not an array (an object keyed by
    bucket, a string, a number) are not skipped: the request ends with
    status 500, since only an array can be mapped. *)
Theorem non_array_buckets_fail_request (env : Env)
    (baseConfig : option Config.t) (query : Query.t) (w w1 : World)
    (tr : TimeRange.t) (results : value) :
  build_timeRange env query w = (Normal tr, w1) ->
  elastic_search env (request_of env (parameters baseConfig query) tr)
  = Normal results ->
  is_nullish results = false ->
  truthy (reported_buckets results) = true ->
  (forall buckets, reported_buckets results <> VArr buckets) ->
  exists w',
    get_datapoints_histogram env baseConfig query w
    = (Normal (mkReply 500
                 (Failure "Internal server error"
                    "results.aggregations.histogram.buckets.map is not a function")),
       w').
Proof.
  intros Htr Hsearch Hres Hb Hnot.
  destruct (handler_after_search env baseConfig query w w1 tr results
              Htr Hsearch) as [w' Hrun].
  rewrite shape_response_buckets in Hrun by assumption.
  exists w'. rewrite Hrun.
  destruct (reported_buckets results) as [| | x | n | s | xs | fields];
    try discriminate Hb; try reflexivity.
  exfalso. now apply (Hnot xs).
Qed.

Lemma non_array_buckets_fail_request_witness :
  exists w',
    get_datapoints_histogram
      (Sample.env_of
         (fun _ =>
            Normal (VObj [("aggregations",
              VObj [("histogram",
                VObj [("buckets",
                  VObj [("2024-01-01", Sample.bucket_with_zero)])])])])))
      None Sample.bounded_query Sample.fresh
    = (Normal (mkReply 500
                 (Failure "Internal server error"
                    "results.aggregations.histogram.buckets.map is not a function")),
       w').
Proof.
  apply (non_array_buckets_fail_request
           (Sample.env_of
              (fun _ =>
                 Normal (VObj [("aggregations",
                   VObj [("histogram",
                     VObj [("buckets",
                       VObj [("2024-01-01", Sample.bucket_with_zero)])])])])))
           None Sample.bounded_query Sample.fresh Sample.fresh
           (TimeRange.mk "2024-01-01T00:00:00.000Z"
              "2024-01-02T00:00:00.000Z")
           _ eq_refl eq_refl eq_refl eq_refl).
  intros buckets H. discriminate H.
Defined.

(** *** More on the delta handler *)

(** What the handler does to a record whose data is neither null nor
    undefined. *)
Lemma delta_handler_run (tableName : string) (delta : list (string * value))
    (data : value) :
  lookup "data" delta = Some data ->
  is_nullish data = false ->
  delta_handler tableName delta
  = Normal (if complete data
            then delete "data"
                   (set ("@" ++ tableName) (datapoint_of data) delta)
            else delta).
Proof.
  intros Hdata Hn. unfold delta_handler. cbn [get]. rewrite Hdata.
  cbn [cbind]. unfold complete_datapoint, complete, datapoint_of.
  rewrite !(get_non_nullish data) by exact Hn. cbn [cbind].
  destruct (truthy (get_opt data "value")) eqn:Hv; cbn [cbind andb].
  - destruct (truthy (get_opt data "median")) eqn:Hm; cbn [cbind andb].
    + destruct (truthy (get_opt data "owner")); reflexivity.
    + rewrite Hm. reflexivity.
  - rewrite Hv. reflexivity.
Qed.

Lemma delta_handler_no_data (tableName : string)
    (delta : list (string * value)) :
  get_opt (VObj delta) "data" = VUndefined
  \/ get_opt (VObj delta) "data" = VNull ->
  exists e, delta_handler tableName delta = Throw e /\ name e = "TypeError".
Proof.
  unfold delta_handler. cbn [get get_opt].
  destruct (lookup "data" delta) as [data |]; intros [H | H]; subst;
    try discriminate H; cbn; eexists; split; reflexivity.
Qed.

(** X11: a record whose data lacks a truthy value, median or owner is left
    exactly as it was: nothing is added and the data stays. *)
Theorem incomplete_delta_unchanged (tableName : string)
    (delta : list (string * value)) (data : value) :
  lookup "data" delta = Some data ->
  is_nullish data = false ->
  complete data = false ->
  delta_handler tableName delta = Normal delta.
Proof.
  intros Hdata Hn Hc. rewrite (delta_handler_run _ _ data Hdata Hn).
  now rewrite Hc.
Qed.

Lemma incomplete_delta_unchanged_witness :
  delta_handler "datapoints"
    [("code", VStr "delphioracle");
     ("data", VObj [("owner", VStr "oracle1"); ("value", VNum 0);
                    ("median", VNum 1230)])]
  = Normal
      [("code", VStr "delphioracle");
       ("data", VObj [("owner", VStr "oracle1"); ("value", VNum 0);
                      ("median", VNum 1230)])].
Proof.
  apply (incomplete_delta_unchanged "datapoints" _
           (VObj [("owner", VStr "oracle1"); ("value", VNum 0);
                  ("median", VNum 1230)]));
    reflexivity.
Defined.

(** X12: a record without data (absent, undefined or null) makes the
    handler throw a TypeError; the record is not returned. *)
Theorem delta_without_data_throws (tableName : string)
    (delta : list (string * value)) :
  is_nullish (get_opt (VObj delta) "data") = true ->
  exists e, delta_handler tableName delta = Throw e /\ name e = "TypeError".
Proof.
  intros H. apply delta_handler_no_data.
  destruct (get_opt (VObj delta) "data"); try discriminate H; auto.
Qed.

Lemma delta_without_data_throws_witness :
  exists e,
    delta_handler "datapoints" [("code", VStr "delphioracle")] = Throw e
    /\ name e = "TypeError".
Proof.
  apply (delta_without_data_throws "datapoints"
           [("code", VStr "delphioracle")]).
  reflexivity.
Defined.

(** X13: the handler cannot be applied twice: once it has rewritten a
    record the data is gone, and a second call on the result throws a
    TypeError. *)
Theorem delta_handler_once (tableName : string)
    (delta delta' : list (string * value)) (data : value) :
  lookup "data" delta = Some data ->
  complete data = true ->
  delta_handler tableName delta = Normal delta' ->
  exists e, delta_handler tableName delta' = Throw e /\ name e = "TypeError".
Proof.
  intros Hdata Hc Hrun.
  assert (Hn : is_nullish data = false).
  { apply get_opt_defined with (k := "value").
    apply non_nullish_defined. apply truthy_non_nullish.
    unfold complete in Hc.
    now destruct (truthy (get_opt data "value")). }
  rewrite (delta_handler_run _ _ data Hdata Hn), Hc in Hrun.
  inversion Hrun; subst. apply delta_handler_no_data. left.
  cbn [get_opt]. now rewrite lookup_delete_same.
Qed.

Lemma delta_handler_once_witness :
  exists delta' e,
    delta_handler "datapoints" Sample.datapoint_delta = Normal delta'
    /\ delta_handler "datapoints" delta' = Throw e
    /\ name e = "TypeError".
Proof.
  eexists. 
  destruct (delta_handler_once "datapoints" Sample.datapoint_delta _
              (VObj [("id", VNum 7); ("owner", VStr "oracle1");
                     ("value", VNum 1234); ("median", VNum 1230);
                     ("timestamp", VStr "2024-01-01T00:00:00.000")])
              eq_refl eq_refl eq_refl) as (e & Hrun & Hname).
  exists e. split; [reflexivity |]. split; [exact Hrun | exact Hname].
Defined.

Lemma in_keys_set (k k0 : string) (v : value) (fields : list (string * value)) :
  In k (keys (set k0 v fields)) <-> k = k0 \/ In k (keys fields).
Proof.
  induction fields as [| [k' v'] rest IH]; cbn.
  - intuition congruence.
  - destruct (String.eqb k0 k') eqn:E; cbn.
    + apply String.eqb_eq in E. subst k'. intuition congruence.
    + fold (keys (set k0 v rest)). fold (keys rest). rewrite IH. tauto.
Qed.

Lemma in_keys_delete (k k0 : string) (fields : list (string * value)) :
  In k (keys (delete k0 fields)) <-> k <> k0 /\ In k (keys fields).
Proof.
  induction fields as [| [k' v'] rest IH]; cbn.
  - tauto.
  - fold (keys rest). destruct (String.eqb k0 k') eqn:E.
    + apply String.eqb_eq in E. subst k'. fold (keys (delete k0 rest)).
      rewrite IH. intuition congruence.
    + apply String.eqb_neq in E. cbn. fold (keys (delete k0 rest)).
      rewrite IH. intuition congruence.
Qed.

Lemma NoDup_keys_set (k : string) (v : value) (fields : list (string * value)) :
  NoDup (keys fields) -> NoDup (keys (set k v fields)).
Proof.
  induction fields as [| [k' v'] rest IH]; cbn; intros H.
  - constructor; [intros [] | constructor].
  - inversion H as [| ? ? Hnotin Hrest]; subst.
    destruct (String.eqb k k') eqn:E; cbn.
    + apply String.eqb_eq in E. subst k'. now constructor.
    + apply String.eqb_neq in E. constructor.
      * fold (keys (set k v rest)). rewrite in_keys_set.
        intros [-> | Hin]; [now apply E | now apply Hnotin].
      * now apply IH.
Qed.

Lemma NoDup_keys_delete (k : string) (fields : list (string * value)) :
  NoDup (keys fields) -> NoDup (keys (delete k fields)).
Proof.
  induction fields as [| [k' v'] rest IH]; cbn; intros H; [constructor |].
  inversion H as [| ? ? Hnotin Hrest]; subst.
  destruct (String.eqb k k'); [now apply IH |].
  cbn. constructor; [| now apply IH].
  fold (keys (delete k rest)). rewrite in_keys_delete.
  intros [_ Hin]. now apply Hnotin.
Qed.

(** X14: the handler keeps a record well formed and touches two names
    only: if no property name occurs twice before the call, none does
    after it, and the names after a rewrite are the names before it, with
    the at-sign name of the table added and data removed. *)
Theorem delta_handler_keys (tableName : string)
    (delta delta' : list (string * value)) :
  NoDup (keys delta) ->
  delta_handler tableName delta = Normal delta' ->
  NoDup (keys delta')
  /\ (delta' = delta
      \/ forall k, In k (keys delta')
                   <-> k <> "data"
                       /\ (k = "@" ++ tableName \/ In k (keys delta))).
Proof.
  intros Hnd Hrun.
  destruct (lookup "data" delta) as [data |] eqn:Hdata.
  - destruct (is_nullish data) eqn:Hn.
    + destruct (delta_handler_no_data tableName delta) as (e & He & _).
      { cbn [get_opt]. rewrite Hdata.
        destruct data; try discriminate Hn; auto. }
      rewrite He in Hrun. discriminate Hrun.
    + rewrite (delta_handler_run _ _ data Hdata Hn) in Hrun.
      inversion Hrun as [Hd]. destruct (complete data).
      * split.
        -- apply NoDup_keys_delete. now apply NoDup_keys_set.
        -- right. intros k. rewrite in_keys_delete, in_keys_set. tauto.
      * split; [exact Hnd | now left].
  - destruct (delta_handler_no_data tableName delta) as (e & He & _).
    { cbn [get_opt]. rewrite Hdata. now left. }
    rewrite He in Hrun. discriminate Hrun.
Qed.

Lemma delta_handler_keys_witness :
  NoDup (keys (delete "data"
                 (set "@datapoints"
                    (datapoint_of
                       (VObj [("id", VNum 7); ("owner", VStr "oracle1");
                              ("value", VNum 1234); ("median", VNum 1230);
                              ("timestamp", VStr "2024-01-01T00:00:00.000")]))
                    Sample.datapoint_delta))).
Proof.
  apply (delta_handler_keys "datapoints" Sample.datapoint_delta).
  - repeat constructor; cbn; intuition discriminate.
  - reflexivity.
Defined.

(** *** The constructor *)

(** X15: the constructor registers one handler, for the configured table
    and contract (datapoints and delphioracle when the configuration gives
    none or an empty one); the mapping it declares sits under the very key
    the handler writes, the at sign followed by the table, and names the
    three fields the handler stores. *)
Theorem constructor_mapping_matches_handler (config : Config.t) :
  exists h,
    constructor config = [h]
    /\ DeltaHandler.table h = str_or (Config.table config) "datapoints"
    /\ DeltaHandler.contract h
       = str_or (Config.contract config) "delphioracle"
    /\ get_opt (get_opt (get_opt (DeltaHandler.mappings h) "delta")
                  ("@" ++ DeltaHandler.table h)) "properties"
       = VObj [("value", VObj [("type", VStr "long")]);
               ("owner", VObj [("type", VStr "keyword")]);
               ("median", VObj [("type", VStr "long")])]
    /\ forall delta data,
         lookup "data" delta = Some data -> complete data = true ->
         exists delta',
           DeltaHandler.handler h delta = Normal delta'
           /\ lookup ("@" ++ DeltaHandler.table h) delta'
              = Some (VObj [("owner", get_opt data "owner");
                            ("value", get_opt data "value");
                            ("median", get_opt data "median")]).
Proof.
  eexists. split; [reflexivity |]. cbn [DeltaHandler.table
    DeltaHandler.contract DeltaHandler.mappings DeltaHandler.handler].
  split; [reflexivity |]. split; [reflexivity |]. split.
  - unfold delta_mappings. cbn [get_opt lookup String.eqb Ascii.eqb Bool.eqb].
    cbn [append]. cbn [String.eqb Ascii.eqb Bool.eqb].
    rewrite String.eqb_refl. reflexivity.
  - intros delta data Hdata Hc.
    assert (Hn : is_nullish data = false).
    { apply get_opt_defined with (k := "value").
      apply non_nullish_defined. apply truthy_non_nullish.
      unfold complete in Hc. now destruct (truthy (get_opt data "value")). }
    rewrite (delta_handler_run _ _ data Hdata Hn), Hc.
    eexists. split; [reflexivity |].
    rewrite lookup_delete_other by reflexivity.
    rewrite lookup_set_same. reflexivity.
Qed.

(** X16: the statistics of a search are always computed over the fields
    @datapoints.value and @datapoints.median, whatever table is configured,
    while the delta handler of a table other than datapoints stores its
    object under another key and leaves @datapoints as it was. *)
Theorem statistics_read_datapoints_only (env : Env)
    (baseConfig : option Config.t) (query : Query.t) (tr : TimeRange.t)
    (tableName : string) (delta delta' : list (string * value))
    (data : value) :
  aggregated_fields (request_of env (parameters baseConfig query) tr)
  = [VStr "@datapoints.value"; VStr "@datapoints.value";
     VStr "@datapoints.value"; VStr "@datapoints.median"]
  /\ (tableName <> "datapoints" ->
      lookup "data" delta = Some data ->
      delta_handler tableName delta = Normal delta' ->
      lookup "@datapoints" delta' = lookup "@datapoints" delta).
Proof.
  split; [reflexivity |].
  intros Hne Hdata Hrun.
  destruct (is_nullish data) eqn:Hn.
  - destruct (delta_handler_no_data tableName delta) as (e & He & _).
    { cbn [get_opt]. rewrite Hdata. destruct data; try discriminate Hn; auto. }
    rewrite He in Hrun. discriminate Hrun.
  - rewrite (delta_handler_run _ _ data Hdata Hn) in Hrun.
    inversion Hrun as [Hd]. destruct (complete data); [| reflexivity].
    rewrite lookup_delete_other by reflexivity.
    apply lookup_set_other. apply String.eqb_neq. cbn [append].
    intros H. injection H as H. now apply Hne.
Qed.

Lemma statistics_read_datapoints_only_witness :
  lookup "@datapoints"
    (delete "data"
       (set "@prices" (datapoint_of (VObj [("owner", VStr "oracle1");
                                           ("value", VNum 1234);
                                           ("median", VNum 1230)]))
          [("data", VObj [("owner", VStr "oracle1"); ("value", VNum 1234);
                          ("median", VNum 1230)])]))
  = None.
Proof.
  apply (proj2 (statistics_read_datapoints_only
                  (Sample.env_of Sample.five_hits) None Sample.no_query
                  (TimeRange.mk "" "") "prices"
                  [("data", VObj [("owner", VStr "oracle1");
                                  ("value", VNum 1234);
                                  ("median", VNum 1230)])]
                  _ (VObj [("owner", VStr "oracle1"); ("value", VNum 1234);
                           ("median", VNum 1230)]))).
  - discriminate.
  - reflexivity.
  - reflexivity.
Defined.

(** *** Canonical timestamps *)

Lemma digit_val_digit (d : Z) :
  JSDate.digit_val (JSDate.digit d) = Some (d mod 10).
Proof.
  unfold JSDate.digit.
  assert (H : 0 <= d mod 10 < 10) by (apply Z.mod_pos_bound; lia).
  assert (E : d mod 10 = 0 \/ d mod 10 = 1 \/ d mod 10 = 2 \/ d mod 10 = 3
              \/ d mod 10 = 4 \/ d mod 10 = 5 \/ d mod 10 = 6
              \/ d mod 10 = 7 \/ d mod 10 = 8 \/ d mod 10 = 9) by lia.
  repeat destruct E as [E | E]; rewrite E; reflexivity.
Qed.

Lemma take_digits_pad2 (n : Z) (rest : string) :
  0 <= n < 100 ->
  JSDate.take_digits 2 0 (JSDate.pad2 n ++ rest) = Some (n, rest).
Proof.
  intros H. unfold JSDate.pad2. cbn [append JSDate.take_digits].
  rewrite !digit_val_digit. f_equal. f_equal.
  Z.div_mod_to_equations. lia.
Qed.

Lemma take_digits_pad3 (n : Z) (rest : string) :
  0 <= n < 1000 ->
  JSDate.take_digits 3 0 (JSDate.pad3 n ++ rest) = Some (n, rest).
Proof.
  intros H. unfold JSDate.pad3, JSDate.pad2.
  cbn [append JSDate.take_digits].
  rewrite !digit_val_digit. f_equal. f_equal.
  Z.div_mod_to_equations. lia.
Qed.

Lemma take_digits_pad4 (n : Z) (rest : string) :
  0 <= n < 10000 ->
  JSDate.take_digits 4 0 (JSDate.pad4 n ++ rest) = Some (n, rest).
Proof.
  intros H. unfold JSDate.pad4, JSDate.pad3, JSDate.pad2.
  cbn [append JSDate.take_digits].
  rewrite !digit_val_digit. f_equal. f_equal.
  Z.div_mod_to_equations. lia.
Qed.

Lemma DayFromYear_succ (y : Z) :
  JSDate.DayFromYear (y + 1)
  = JSDate.DayFromYear y + (if JSDate.is_leap y then 366 else 365).
Proof.
  unfold JSDate.DayFromYear, JSDate.is_leap.
  destruct (Z.eqb_spec (y mod 4) 0), (Z.eqb_spec (y mod 100) 0),
    (Z.eqb_spec (y mod 400) 0); cbn [andb orb negb];
    Z.div_mod_to_equations; lia.
Qed.

Lemma DayWithinYear_range (t : Z) :
  0 <= JSDate.DayWithinYear t
  < (if JSDate.is_leap (JSDate.YearFromTime t) then 366 else 365).
Proof.
  unfold JSDate.DayWithinYear, JSDate.YearFromTime.
  pose proof (YearFromDay_bounds (JSDate.Day t)) as H.
  rewrite DayFromYear_succ in H. lia.
Qed.

Lemma MonthFromTime_range (t : Z) : 0 <= JSDate.MonthFromTime t <= 11.
Proof.
  unfold JSDate.MonthFromTime, JSDate.month_of_yday.
  repeat match goal with
         | |- context [if ?c then _ else _] => destruct c
         end; lia.
Qed.

Lemma DateFromTime_range (t : Z) :
  1 <= JSDate.DateFromTime t
  <= JSDate.DaysInMonth (JSDate.is_leap (JSDate.YearFromTime t))
       (JSDate.MonthFromTime t).
Proof.
  pose proof (DayWithinYear_range t) as H.
  unfold JSDate.DateFromTime, JSDate.MonthFromTime, JSDate.month_of_yday,
    JSDate.DaysInMonth.
  destruct (JSDate.is_leap (JSDate.YearFromTime t));
    repeat match goal with
           | |- context [?a <? ?b] => destruct (Z.ltb_spec a b)
           end;
    cbn in *; lia.
Qed.

Lemma time_of_fields (t : Z) :
  JSDate.MakeDate
    (JSDate.MakeDay (JSDate.YearFromTime t) (JSDate.MonthFromTime t)
       (JSDate.DateFromTime t))
    (JSDate.MakeTime (JSDate.HourFromTime t) (JSDate.MinFromTime t)
       (JSDate.SecFromTime t) (JSDate.msFromTime t))
  = t.
Proof.
  unfold JSDate.MakeDate, JSDate.MakeDay, JSDate.DateFromTime,
    JSDate.DayWithinYear, JSDate.MakeTime, JSDate.HourFromTime,
    JSDate.MinFromTime, JSDate.SecFromTime, JSDate.msFromTime, JSDate.Day,
    JSDate.msPerDay, JSDate.msPerHour, JSDate.msPerMinute, JSDate.msPerSecond.
  set (b := JSDate.DaysBeforeMonth _ _).
  set (y0 := JSDate.DayFromYear _).
  Z.div_mod_to_equations. lia.
Qed.

(** A canonical timestamp with a four-digit year parses back to the time
    value it was written from. *)
Lemma iso_utc_iso_string (t : Z) :
  0 <= JSDate.YearFromTime t <= 9999 ->
  JSDate.iso_utc (JSDate.iso_string t) = Some t.
Proof.
  intros Hy.
  pose proof (MonthFromTime_range t) as Hm.
  pose proof (DateFromTime_range t) as Hd.
  assert (Hd' : 1 <= JSDate.DateFromTime t <= 31).
  { split; [lia |]. eapply Z.le_trans; [apply Hd |].
    unfold JSDate.DaysInMonth.
    destruct (JSDate.is_leap _);
      assert (E : JSDate.MonthFromTime t = 0 \/ JSDate.MonthFromTime t = 1
                  \/ JSDate.MonthFromTime t = 2 \/ JSDate.MonthFromTime t = 3
                  \/ JSDate.MonthFromTime t = 4 \/ JSDate.MonthFromTime t = 5
                  \/ JSDate.MonthFromTime t = 6 \/ JSDate.MonthFromTime t = 7
                  \/ JSDate.MonthFromTime t = 8 \/ JSDate.MonthFromTime t = 9
                  \/ JSDate.MonthFromTime t = 10
                  \/ JSDate.MonthFromTime t = 11) by lia;
      repeat destruct E as [E | E]; rewrite E; cbn; lia. }
  assert (Hh : 0 <= JSDate.HourFromTime t < 24)
    by (apply Z.mod_pos_bound; lia).
  assert (Hmi : 0 <= JSDate.MinFromTime t < 60)
    by (apply Z.mod_pos_bound; lia).
  assert (Hs : 0 <= JSDate.SecFromTime t < 60)
    by (apply Z.mod_pos_bound; lia).
  assert (Hms : 0 <= JSDate.msFromTime t < 1000)
    by (apply Z.mod_pos_bound; unfold JSDate.msPerSecond; lia).
  unfold JSDate.iso_string, JSDate.year_string.
  replace ((0 <=? JSDate.YearFromTime t) && (JSDate.YearFromTime t <=? 9999))
    with true by (symmetry; apply andb_true_intro; split; apply Z.leb_le; lia).
  unfold JSDate.iso_utc, JSDate.parse_date.
  rewrite take_digits_pad4 by lia.
  cbn [append JSDate.expect Ascii.eqb Bool.eqb].
  rewrite take_digits_pad2 by lia.
  cbn [append JSDate.expect Ascii.eqb Bool.eqb].
  rewrite take_digits_pad2 by lia.
  replace (JSDate.MonthFromTime t + 1 - 1) with (JSDate.MonthFromTime t)
    by lia.
  replace ((1 <=? JSDate.MonthFromTime t + 1)
           && (JSDate.MonthFromTime t + 1 <=? 12)
           && (1 <=? JSDate.DateFromTime t)
           && (JSDate.DateFromTime t
               <=? JSDate.DaysInMonth
                     (JSDate.is_leap (JSDate.YearFromTime t))
                     (JSDate.MonthFromTime t)))
    with true
    by (symmetry; repeat (apply andb_true_intro; split); apply Z.leb_le; lia).
  cbn [append Ascii.eqb Bool.eqb].
  unfold JSDate.parse_time.
  rewrite take_digits_pad2 by lia.
  cbn [append JSDate.expect Ascii.eqb Bool.eqb].
  rewrite take_digits_pad2 by lia.
  cbn [append JSDate.expect Ascii.eqb Bool.eqb].
  rewrite take_digits_pad2 by lia.
  cbn [append JSDate.expect Ascii.eqb Bool.eqb].
  rewrite take_digits_pad3 by lia.
  unfold JSDate.utc_time.
  replace (JSDate.HourFromTime t <? 24) with true
    by (symmetry; apply Z.ltb_lt; lia).
  replace (JSDate.MinFromTime t <? 60) with true
    by (symmetry; apply Z.ltb_lt; lia).
  replace (JSDate.SecFromTime t <? 60) with true
    by (symmetry; apply Z.ltb_lt; lia).
  cbn [String.eqb Ascii.eqb Bool.eqb andb].
  f_equal. apply time_of_fields.
Qed.

Lemma four_digit_year_valid (t : Z) :
  0 <= JSDate.YearFromTime t <= 9999 -> JSDate.TimeClip t = Some t.
Proof.
  intros Hy. unfold JSDate.TimeClip.
  pose proof (YearFromDay_bounds (JSDate.Day t)) as [Hlo Hhi].
  fold (JSDate.YearFromTime t) in Hlo, Hhi.
  assert (H0 : JSDate.DayFromYear 0 <= JSDate.DayFromYear (JSDate.YearFromTime t)).
  { destruct (Z.eq_dec (JSDate.YearFromTime t) 0) as [-> | Hne]; [lia |].
    apply Z.lt_le_incl, DayFromYear_increasing. lia. }
  assert (H1 : JSDate.DayFromYear (JSDate.YearFromTime t + 1)
               <= JSDate.DayFromYear 10000).
  { destruct (Z.eq_dec (JSDate.YearFromTime t + 1) 10000) as [-> | Hne];
      [lia |].
    apply Z.lt_le_incl, DayFromYear_increasing. lia. }
  change (JSDate.DayFromYear 0) with (-719528) in H0.
  change (JSDate.DayFromYear 10000) with 2932897 in H1.
  unfold JSDate.Day, JSDate.msPerDay in Hlo, Hhi.
  replace (Z.abs t <=? 8640000000000000) with true; [reflexivity |].
  symmetry. apply Z.leb_le. Z.div_mod_to_equations. lia.
Qed.

Lemma of_string_iso_string (host : string -> option Z) (t : Z) :
  0 <= JSDate.YearFromTime t <= 9999 ->
  JSDate.of_string host (JSDate.iso_string t) = Some t.
Proof.
  intros Hy. unfold JSDate.of_string, JSDate.parse.
  rewrite (iso_utc_iso_string t Hy). now apply four_digit_year_valid.
Qed.

Lemma given_iso_string (t : Z) :
  given (Some (JSDate.iso_string t)) = Some (JSDate.iso_string t).
Proof.
  unfold given, JSDate.iso_string, JSDate.year_string.
  destruct ((0 <=? JSDate.YearFromTime t) && (JSDate.YearFromTime t <=? 9999));
    [| destruct (JSDate.YearFromTime t <? 0)]; reflexivity.
Qed.

Lemma build_timeRange_canonical (env : Env) (query : Query.t) (w : World)
    (t1 t2 : Z) :
  0 <= JSDate.YearFromTime t1 <= 9999 ->
  0 <= JSDate.YearFromTime t2 <= 9999 ->
  Query.after query = Some (JSDate.iso_string t1) ->
  Query.before query = Some (JSDate.iso_string t2) ->
  build_timeRange env query w
  = (Normal (TimeRange.mk (JSDate.iso_string t1) (JSDate.iso_string t2)), w).
Proof.
  intros H1 H2 Ha Hb. unfold build_timeRange, timeRange_gte, timeRange_lte.
  rewrite Ha, Hb, !given_iso_string, !of_string_iso_string by assumption.
  reflexivity.
Qed.

(** X17: bounds that are already canonical timestamps with a four-digit
    year come back unchanged, whatever the host parser: the search filter
    and the response carry exactly the two supplied strings.  Nothing
    compares the two bounds, so a window whose lower bound is the later one
    is passed on as it is. *)
Theorem canonical_bounds_echoed (env : Env) (baseConfig : option Config.t)
    (query : Query.t) (w w' : World) (reply : Reply) (t1 t2 : Z) :
  0 <= JSDate.YearFromTime t1 <= 9999 ->
  0 <= JSDate.YearFromTime t2 <= 9999 ->
  Query.after query = Some (JSDate.iso_string t1) ->
  Query.before query = Some (JSDate.iso_string t2) ->
  get_datapoints_histogram env baseConfig query w = (Normal reply, w') ->
  (exists submitted,
      searches w' = (searches w ++ submitted)%list
      /\ forall request, In request submitted ->
           In (range_clause (JSDate.iso_string t1) (JSDate.iso_string t2))
              (must_clauses request))
  /\ (forall response, payload reply = Ok response ->
        Response.time_range response
        = Window.mk (JSDate.iso_string t1) (JSDate.iso_string t2)).
Proof.
  intros H1 H2 Ha Hb Hrun.
  exact (window_of_timeRange env baseConfig query w w w' _ reply
           (build_timeRange_canonical env query w t1 t2 H1 H2 Ha Hb) Hrun).
Qed.

Lemma canonical_bounds_echoed_witness :
  exists response w',
    get_datapoints_histogram (Sample.env_of Sample.five_hits) None
      (Query.mk None None (Some (JSDate.iso_string 1704153600000))
         (Some (JSDate.iso_string 1704067200000)) None)
      Sample.fresh
    = (Normal (mkReply 200 (Ok response)), w')
    /\ Response.time_range response
       = Window.mk "2024-01-02T00:00:00.000Z" "2024-01-01T00:00:00.000Z".
Proof.
  eexists. eexists. split; [vm_compute; reflexivity |].
  eapply (canonical_bounds_echoed (Sample.env_of Sample.five_hits) None
            (Query.mk None None (Some (JSDate.iso_string 1704153600000))
               (Some (JSDate.iso_string 1704067200000)) None)
            Sample.fresh _ _ 1704153600000 1704067200000).
  - vm_compute. split; discriminate.
  - vm_compute. split; discriminate.
  - reflexivity.
  - reflexivity.
  - vm_compute. reflexivity.
  - reflexivity.
Defined.

Lemma build_timeRange_only_before (env : Env) (query : Query.t) (w : World)
    (b : string) (t : Z) :
  given (Query.after query) = None ->
  given (Query.before query) = Some b ->
  JSDate.of_string (host_parse env) b = Some t ->
  Z.abs (clock env (clock_reads w) - 86400000) <= max_time ->
  build_timeRange env query w
  = (Normal (TimeRange.mk
               (JSDate.iso_string (clock env (clock_reads w) - 86400000))
               (JSDate.iso_string t)),
     mkWorld (S (clock_reads w)) (searches w) (error_log w)).
Proof.
  intros Ha Hb Ht H1. unfold build_timeRange, timeRange_gte, timeRange_lte.
  rewrite Ha, Hb, Ht. unfold bind, Date_now, lift, ret, JSDate.of_number,
    JSDate.TimeClip.
  change (24 * 60 * 60 * 1000) with 86400000.
  apply Z.leb_le in H1. unfold max_time in H1. rewrite H1. reflexivity.
Qed.

(** X18: when the request gives only the upper bound, the lower bound is
    still the clock reading minus 24 hours, whatever the upper bound is:
    the window is not 24 hours long, and it is inverted when the upper
    bound lies more than 24 hours in the past. *)
Theorem only_before_keeps_clock_lower_bound (env : Env)
    (baseConfig : option Config.t) (query : Query.t) (w w' : World)
    (reply : Reply) (b : string) (t : Z) :
  given (Query.after query) = None ->
  given (Query.before query) = Some b ->
  JSDate.of_string (host_parse env) b = Some t ->
  Z.abs (clock env (clock_reads w) - 86400000) <= max_time ->
  get_datapoints_histogram env baseConfig query w = (Normal reply, w') ->
  (exists submitted,
      searches w' = (searches w ++ submitted)%list
      /\ forall request, In request submitted ->
           In (range_clause
                 (JSDate.iso_string (clock env (clock_reads w) - 86400000))
                 (JSDate.iso_string t))
              (must_clauses request))
  /\ (forall response, payload reply = Ok response ->
        Response.time_range response
        = Window.mk
            (JSDate.iso_string (clock env (clock_reads w) - 86400000))
            (JSDate.iso_string t)).
Proof.
  intros Ha Hb Ht H1 Hrun.
  exact (window_of_timeRange env baseConfig query w _ w' _ reply
           (build_timeRange_only_before env query w b t Ha Hb Ht H1) Hrun).
Qed.

Lemma only_before_keeps_clock_lower_bound_witness :
  exists response w',
    get_datapoints_histogram
      (mkEnv (fun _ => 1704067200000) Sample.strict_host "telos"
         Sample.five_hits)
      None (Query.mk None None None (Some "2020-01-01") None) Sample.fresh
    = (Normal (mkReply 200 (Ok response)), w')
    /\ Response.time_range response
       = Window.mk "2023-12-31T00:00:00.000Z" "2020-01-01T00:00:00.000Z".
Proof.
  eexists. eexists. split; [vm_compute; reflexivity |].
  eapply (only_before_keeps_clock_lower_bound
            (mkEnv (fun _ => 1704067200000) Sample.strict_host "telos"
               Sample.five_hits)
            None (Query.mk None None None (Some "2020-01-01") None)
            Sample.fresh _ _ "2020-01-01" 1577836800000).
  - reflexivity.
  - reflexivity.
  - vm_compute. reflexivity.
  - vm_compute. discriminate.
  - vm_compute. reflexivity.
  - reflexivity.
Defined.

Lemma build_timeRange_only_after (env : Env) (query : Query.t) (w : World)
    (a : string) (t : Z) :
  given (Query.after query) = Some a ->
  given (Query.before query) = None ->
  JSDate.of_string (host_parse env) a = Some t ->
  Z.abs (clock env (clock_reads w)) <= max_time ->
  build_timeRange env query w
  = (Normal (TimeRange.mk (JSDate.iso_string t)
               (JSDate.iso_string (clock env (clock_reads w)))),
     mkWorld (S (clock_reads w)) (searches w) (error_log w)).
Proof.
  intros Ha Hb Ht H1. unfold build_timeRange, timeRange_gte, timeRange_lte.
  rewrite Ha, Hb, Ht. unfold bind, Date_now, lift, ret, JSDate.of_number,
    JSDate.TimeClip. cbn [JSDate.toISOString].
  apply Z.leb_le in H1. unfold max_time in H1. rewrite H1. reflexivity.
Qed.

(** X19: when the request gives only the lower bound, the window runs from
    that bound to the one clock reading the request takes. *)
Theorem only_after_ends_now (env : Env) (baseConfig : option Config.t)
    (query : Query.t) (w w' : World) (reply : Reply) (a : string) (t : Z) :
  given (Query.after query) = Some a ->
  given (Query.before query) = None ->
  JSDate.of_string (host_parse env) a = Some t ->
  Z.abs (clock env (clock_reads w)) <= max_time ->
  get_datapoints_histogram env baseConfig query w = (Normal reply, w') ->
  (exists submitted,
      searches w' = (searches w ++ submitted)%list
      /\ forall request, In request submitted ->
           In (range_clause (JSDate.iso_string t)
                 (JSDate.iso_string (clock env (clock_reads w))))
              (must_clauses request))
  /\ (forall response, payload reply = Ok response ->
        Response.time_range response
        = Window.mk (JSDate.iso_string t)
            (JSDate.iso_string (clock env (clock_reads w))))
  /\ clock_reads w' = S (clock_reads w).
Proof.
  intros Ha Hb Ht H1 Hrun.
  pose proof (build_timeRange_only_after env query w a t Ha Hb Ht H1) as Hb'.
  destruct (window_of_timeRange env baseConfig query w _ w' _ reply Hb' Hrun)
    as [Hreq Hresp].
  split; [exact Hreq |]. split; [exact Hresp |].
  rewrite handler_unfold in Hrun. cbv zeta in Hrun. rewrite Hb' in Hrun.
  destruct (elastic_search env _) as [results | e];
    [destruct (shape_response _ _ _ _ _ results) |];
    rewrite ?catch_block_run in Hrun; inversion Hrun; reflexivity.
Qed.

Lemma only_after_ends_now_witness :
  exists response w',
    get_datapoints_histogram (Sample.env_of Sample.five_hits) None
      (Query.mk None None (Some "1969-12-01") None None) Sample.fresh
    = (Normal (mkReply 200 (Ok response)), w')
    /\ Response.time_range response
       = Window.mk "1969-12-01T00:00:00.000Z" "1970-01-01T00:00:01.000Z".
Proof.
  eexists. eexists. split; [vm_compute; reflexivity |].
  eapply (only_after_ends_now (Sample.env_of Sample.five_hits) None
            (Query.mk None None (Some "1969-12-01") None None)
            Sample.fresh _ _ "1969-12-01" (-2678400000)).
  - reflexivity.
  - reflexivity.
  - vm_compute. reflexivity.
  - vm_compute. discriminate.
  - vm_compute. reflexivity.
  - reflexivity.
Defined.

(** *** Scope, contract and table *)

(** X20: a scope of the request and a contract and table of the static
    configuration that are not empty are used as they are, in the three
    term filters of the search and in the response; an empty string counts
    as absent and gives the default. *)
Theorem identifiers_passed_verbatim (env : Env) (config : Config.t)
    (query : Query.t) (w w' : World) (reply : Reply) (s c t : string) :
  Query.scope query = Some s ->
  Config.contract config = Some c ->
  Config.table config = Some t ->
  get_datapoints_histogram env (Some config) query w = (Normal reply, w') ->
  (exists submitted,
      searches w' = (searches w ++ submitted)%list
      /\ forall request, In request submitted ->
           exists from to,
             must_clauses request
             = [range_clause from to;
                term "code" (if string_truthy c then c else "delphioracle");
                term "table" (if string_truthy t then t else "datapoints");
                term "scope" (if string_truthy s then s else "tlosusd")])
  /\ (forall response, payload reply = Ok response ->
        Response.scope response = (if string_truthy s then s else "tlosusd")
        /\ Response.contract response
           = (if string_truthy c then c else "delphioracle")
        /\ Response.table response
           = (if string_truthy t then t else "datapoints")).
Proof.
  intros Hs Hc Ht Hrun.
  assert (Hp : Params.scope (parameters (Some config) query)
               = (if string_truthy s then s else "tlosusd")
               /\ Params.contractName (parameters (Some config) query)
                  = (if string_truthy c then c else "delphioracle")
               /\ Params.tableName (parameters (Some config) query)
                  = (if string_truthy t then t else "datapoints")).
  { unfold parameters. cbn. now rewrite Hs, Hc, Ht. }
  destruct Hp as (Hps & Hpc & Hpt). split.
  - destruct (handler_submits _ _ _ _ _ _ Hrun) as (submitted & Hsub & Hreq).
    exists submitted. split; [exact Hsub |].
    intros request Hin. destruct (Hreq request Hin) as (tr & w1 & _ & ->).
    exists (TimeRange.gte tr), (TimeRange.lte tr).
    now rewrite request_must_clauses, Hps, Hpc, Hpt.
  - intros response Hok.
    destruct (handler_ok_inv _ _ _ _ _ _ _ Hrun Hok)
      as (tr & w1 & results & _ & _ & Hshape).
    apply shape_response_fields in Hshape.
    destruct Hshape as (-> & -> & -> & _). auto.
Qed.

Lemma identifiers_passed_verbatim_witness :
  exists response w',
    get_datapoints_histogram (Sample.env_of Sample.five_hits)
      (Some (Config.mk (Some "prices") (Some "")))
      (Query.mk (Some "btcusd") None None None None) Sample.fresh
    = (Normal (mkReply 200 (Ok response)), w')
    /\ Response.scope response = "btcusd"
    /\ Response.contract response = "delphioracle"
    /\ Response.table response = "prices".
Proof.
  eexists. eexists. split; [reflexivity |].
  eapply (identifiers_passed_verbatim (Sample.env_of Sample.five_hits)
            (Config.mk (Some "prices") (Some ""))
            (Query.mk (Some "btcusd") None None None None) Sample.fresh
            _ _ "btcusd" "" "prices"); reflexivity.
Defined.
